(** * check_media_integrity: the tiered verification engine

    A shallow embedding of [check_media_integrity.py]: the process runner
    [run] with its byte decoding, the three evaluators [check_fast],
    [check_decode_first_frame] and [check_full_decode], the per-file auditor
    [audit_one] and the counting loop of [main].

    Python values are modelled as follows.
    - [str] is a list of Unicode code points, [bytes] a list of bytes.
    - [int] is [Z].
    - What the interpreter and the operating system decide (whether a tool is
      installed, what a child process does, the clock, the locale and the
      codec registry) is gathered in a record [Host]; every function takes the
      host as its first argument.
    - Effects are threaded through a state and exception monad [M]; the state
      holds the number of clock readings taken so far and a trace of the
      evaluators invoked and the processes spawned. *)

From Stdlib Require Import List ZArith NArith QArith Bool Ascii String
  DecimalString Lia Permutation.
From Stdlib.Strings Require Import Byte.
Import ListNotations.

Local Open Scope Z_scope.

(** ** Text *)

Module Text.

(** A Python [str]: the sequence of its code points. *)
Definition str := list N.

(** A Python [bytes] object. *)
Definition bytes := list byte.

Definition str_eqb (a b : str) : bool :=
  if list_eq_dec N.eq_dec a b then true else false.

(** An ASCII literal of the source as a [str]. *)
Definition lit (s : string) : str :=
  map (fun c => N_of_ascii c) (list_ascii_of_string s).

(** [Py_UNICODE_ISSPACE]: the characters [str.strip()] removes. *)
Definition isspace (c : N) : bool :=
  ((9 <=? c) && (c <=? 13) || (28 <=? c) && (c <=? 32)
   || (c =? 133) || (c =? 160) || (c =? 5760)
   || (8192 <=? c) && (c <=? 8202)
   || (c =? 8232) || (c =? 8233) || (c =? 8239) || (c =? 8287)
   || (c =? 12288))%N.

Fixpoint lstrip (s : str) : str :=
  match s with
  | c :: s' => if isspace c then lstrip s' else s
  | [] => []
  end.

Definition rstrip (s : str) : str := rev (lstrip (rev s)).

(** [s.strip()] *)
Definition strip (s : str) : str := rstrip (lstrip s).

(** [not s]: the truth value of a string is whether it is non-empty. *)
Definition is_empty (s : str) : bool :=
  match s with [] => true | _ => false end.

Fixpoint starts_with (p s : str) : bool :=
  match p, s with
  | [], _ => true
  | a :: p', b :: s' => (a =? b)%N && starts_with p' s'
  | _ :: _, [] => false
  end.

(** [needle in hay] *)
Fixpoint contains (needle hay : str) : bool :=
  starts_with needle hay
  || match hay with
     | [] => false
     | _ :: hay' => contains needle hay'
     end.

(** [sep.join(parts)] *)
Fixpoint join (sep : str) (parts : list str) : str :=
  match parts with
  | [] => []
  | [p] => p
  | p :: rest => p ++ sep ++ join sep rest
  end.

(** [str(n)] for an [int]. *)
Definition str_of_int (n : Z) : str :=
  lit (NilZero.string_of_int (Z.to_int n)).

(** [str(b)] for a [bool], as an f-string renders it. *)
Definition str_of_bool (b : bool) : str :=
  if b then lit "True" else lit "False".

(** [len(s)] *)
Definition len (s : str) : Z := Z.of_nat (List.length s).

End Text.
Import Text.

(** ** Codecs *)

Module Codec.

(** The [errors] argument of [bytes.decode]. *)
Inductive errors := Strict | Replace.

(** State of the UTF-8 decoder between two bytes: either at a character
    boundary, or inside a sequence, with the bits read so far in [acc], the
    next byte expected in [lo..hi] and [need] more continuation bytes to come
    after that one. *)
Inductive ustate :=
| Boundary
| Pending (need : nat) (acc lo hi : N).

(** What a byte means at a character boundary. *)
Inductive lead :=
| Single (c : N)
| Lead (need : nat) (acc lo hi : N)
| InvalidStart.

Definition classify (b : N) : lead :=
  (if b <? 128 then Single b
   else if b <? 194 then InvalidStart
   else if b <? 224 then Lead 0 (N.land b 31) 128 191
   else if b =? 224 then Lead 1 (N.land b 15) 160 191
   else if b =? 237 then Lead 1 (N.land b 15) 128 159
   else if b <? 240 then Lead 1 (N.land b 15) 128 191
   else if b =? 240 then Lead 2 (N.land b 7) 144 191
   else if b <? 244 then Lead 2 (N.land b 7) 128 191
   else if b =? 244 then Lead 2 (N.land b 7) 128 143
   else InvalidStart)%N.

Definition replacement : N := 65533.

(** [out] is the text decoded so far, most recent code point first. In
    [Strict] mode an ill-formed sequence ends the decoding with [None] (the
    codec raises [UnicodeDecodeError]); in [Replace] mode each maximal
    ill-formed part becomes one U+FFFD. *)
Fixpoint utf8_go (e : errors) (st : ustate) (out : str) (buf : bytes)
  : option str :=
  match buf with
  | [] =>
      match st with
      | Boundary => Some (rev out)
      | Pending _ _ _ _ =>
          match e with
          | Strict => None
          | Replace => Some (rev (replacement :: out))
          end
      end
  | b :: rest =>
      let at_boundary (out : str) :=
        match classify (Byte.to_N b) with
        | Single c => utf8_go e Boundary (c :: out) rest
        | Lead need acc lo hi => utf8_go e (Pending need acc lo hi) out rest
        | InvalidStart =>
            match e with
            | Strict => None
            | Replace => utf8_go e Boundary (replacement :: out) rest
            end
        end in
      match st with
      | Boundary => at_boundary out
      | Pending need acc lo hi =>
          let n := Byte.to_N b in
          if ((lo <=? n) && (n <=? hi))%N then
            let acc' := N.lor (N.shiftl acc 6) (N.land n 63) in
            match need with
            | O => utf8_go e Boundary (acc' :: out) rest
            | S need' => utf8_go e (Pending need' acc' 128 191) out rest
            end
          else
            match e with
            | Strict => None
            | Replace => at_boundary (replacement :: out)
            end
      end
  end.

Definition utf8_decode (e : errors) (buf : bytes) : option str :=
  utf8_go e Boundary [] buf.

(** Latin-1 maps every byte to the code point of the same number. *)
Definition latin1_decode (buf : bytes) : str := map Byte.to_N buf.

(** A UTF-8 literal of the source as a [str]. *)
Definition utf8_lit (s : string) : str :=
  match utf8_decode Replace (list_byte_of_string s) with
  | Some t => t
  | None => []
  end.

End Codec.
Import Codec.


(** ** Paths *)

Module Pathlib.

(** A path, as the string [str(path)] gives. The separator is the slash. *)
Definition Path := str.

(** [rsplit c s] cuts [s] at the last [c]: what is before it, and the rest
    from that [c] on. *)
Fixpoint rsplit (c : N) (s : str) : option (str * str) :=
  match s with
  | [] => None
  | x :: s' =>
      match rsplit c s' with
      | Some (before, rest) => Some (x :: before, rest)
      | None => if (x =? c)%N then Some ([], s) else None
      end
  end.

(** [path.name]: the final component. The paths audited are those
    [iter_files] builds from a directory and a file name, which do not end
    in a separator. *)
Definition name (p : Path) : str :=
  match rsplit 47 p with
  | Some (_, _ :: n) => n
  | _ => p
  end.

(** [path.suffix]: with [i = name.rfind('.')], the slice [name[i:]] when
    [0 < i < len(name) - 1], the empty string otherwise. *)
Definition suffix (p : Path) : str :=
  match rsplit 46 (name p) with
  | Some (_ :: _, (_ :: _ :: _) as ext) => ext
  | _ => []
  end.

End Pathlib.
Import Pathlib.

(** ** The host: interpreter, operating system and installed tools *)

(** The exceptions the program meets are instances of [Exception]; the
    handlers of the source tell [subprocess.TimeoutExpired] from the rest.
    [exn_str] is [str(e)], [exn_repr] is [repr(e)]. *)
Inductive exn_class :=
| TimeoutExpired
| OSError
| LookupError
| UnicodeDecodeError
| OtherException.

Record exn := {
  exn_class_of : exn_class;
  exn_str : str;
  exn_repr : str
}.

(** What [subprocess.run] does with a command line and a timeout: the child
    exits and a [CompletedProcess] comes back, or the call raises (the timeout
    expired, the program could not be started, ...). *)
Inductive spawned :=
| CompletedProcess (returncode : Z) (stdout stderr : option bytes)
| Raised (e : exn).

Record Host := {
  (** the module globals set when the program starts *)
  HAS_FFPROBE : bool;
  HAS_FFMPEG : bool;
  HAS_EXIFTOOL : bool;
  (** [subprocess.run(cmd, timeout=timeout, ...)] *)
  subprocess_run : list str -> Z -> spawned;
  (** the n-th reading of [time.time()], in seconds *)
  time_time : nat -> Q;
  (** [locale.getpreferredencoding(False)] *)
  getpreferredencoding : str;
  (** the codecs other than UTF-8 and Latin-1, by name; [None] when the name
      is unknown, and a codec answers [None] on bytes it rejects *)
  codec : str -> option (bytes -> option str);
  (** [str.lower] *)
  str_lower : str -> str
}.

(** ** The state and exception monad *)

Inductive evaluator := ContainerProbe | FirstFrameDecode | FullTrackDecode.

Inductive event :=
| Invoke (e : evaluator)
| Spawn (cmd : list str) (timeout : Z).

Record State := {
  ticks : nat;
  trace : list event
}.

Inductive result (A : Type) :=
| Return (a : A)
| Raise (e : exn).
Arguments Return {A} a.
Arguments Raise {A} e.

Definition M (A : Type) : Type := State -> result A * State.

Definition ret {A} (a : A) : M A := fun s => (Return a, s).

Definition raise {A} (e : exn) : M A := fun s => (Raise e, s).

Definition bind {A B} (m : M A) (k : A -> M B) : M B :=
  fun s =>
    match m s with
    | (Return a, s') => k a s'
    | (Raise e, s') => (Raise e, s')
    end.

(** [try: body except Exception as e: handler(e)] *)
Definition try_except {A} (body : M A) (handler : exn -> M A) : M A :=
  fun s =>
    match body s with
    | (Return a, s') => (Return a, s')
    | (Raise e, s') => handler e s'
    end.

Definition lift {A} (r : result A) : M A := fun s => (r, s).

Definition log (ev : event) : M unit :=
  fun s => (Return tt, {| ticks := ticks s; trace := trace s ++ [ev] |}).

Declare Scope monad_scope.
Delimit Scope monad_scope with monad.
Notation "x <- m ;; k" := (bind m (fun x => k))
  (at level 61, m at next level, right associativity) : monad_scope.
Notation "' pat <- m ;; k" := (bind m (fun x => match x with pat => k end))
  (at level 61, pat pattern, m at next level, right associativity) : monad_scope.
Notation "m ;; k" := (bind m (fun _ => k))
  (at level 61, right associativity) : monad_scope.
Local Open Scope monad_scope.

(** [time.time()] *)
Definition now (h : Host) : M Q :=
  fun s => (Return (time_time h (ticks s)),
            {| ticks := S (ticks s); trace := trace s |}).

(** [int(x)] for a number [x]: truncation towards zero. *)
Definition int_of_Q (q : Q) : Z := Z.quot (Qnum q) (Zpos (Qden q)).

(** [int((t1 - t0) * 1000)], on exact rationals: the interpreter rounds the
    difference and the product to doubles, so its last digit can differ. *)
Definition elapsed_ms (t0 t1 : Q) : Z := int_of_Q ((t1 - t0) * 1000)%Q.

(** ** Process runner *)

Definition UnicodeDecodeError_ : exn :=
  {| exn_class_of := UnicodeDecodeError;
     exn_str := lit "codec can't decode bytes";
     exn_repr := lit "UnicodeDecodeError(...)" |}.

Definition LookupError_ (enc : str) : exn :=
  {| exn_class_of := LookupError;
     exn_str := lit "unknown encoding: " ++ enc;
     exn_repr := lit "LookupError('unknown encoding: " ++ enc ++ lit "')" |}.

Definition of_option (o : option str) : result str :=
  match o with
  | Some s => Return s
  | None => Raise UnicodeDecodeError_
  end.

(** [buf.decode(enc, errors=e)]. The two codecs the source names that are
    part of every interpreter, UTF-8 and Latin-1, are the ones defined above;
    any other name is looked up on the host. *)
Definition bytes_decode (h : Host) (enc : str) (e : errors) (buf : bytes)
  : result str :=
  if str_eqb enc (lit "utf-8") then of_option (utf8_decode e buf)
  else if str_eqb enc (lit "latin-1") then Return (latin1_decode buf)
  else match codec h enc with
       | Some dec => of_option (dec buf)
       | None => Raise (LookupError_ enc)
       end.

(** [a or b] on strings and byte strings *)
Definition or_else {A} (a b : list A) : list A :=
  match a with [] => b | _ => a end.

(** The encodings [_decode] walks through. *)
Definition encodings (h : Host) : list str :=
  [lit "utf-8"; or_else (getpreferredencoding h) (lit "utf-8");
   lit "gbk"; lit "cp936"; lit "latin-1"].

(** The loop of [_decode]: the first encoding that decodes [buf] gives the
    result; an exception is swallowed and the next one is tried; after the
    loop comes [buf.decode("utf-8", errors="replace")]. *)
Fixpoint decode_loop (h : Host) (buf : bytes) (encs : list str) : result str :=
  match encs with
  | [] => bytes_decode h (lit "utf-8") Replace buf
  | enc :: rest =>
      match bytes_decode h enc Strict buf with
      | Return s => Return s
      | Raise _ => decode_loop h buf rest
      end
  end.

Definition _decode (h : Host) (buf : bytes) : result str :=
  decode_loop h buf (encodings h).

(** The call of [subprocess.run], recorded in the trace. *)
Definition spawn (h : Host) (cmd : list str) (timeout : Z)
  : M (Z * option bytes * option bytes) :=
  log (Spawn cmd timeout) ;;
  match subprocess_run h cmd timeout with
  | CompletedProcess rc out err => ret (rc, out, err)
  | Raised e => raise e
  end.

Definition bytes_or_empty (o : option bytes) : bytes :=
  match o with Some b => b | None => [] end.

Definition is_TimeoutExpired (e : exn) : bool :=
  match exn_class_of e with TimeoutExpired => true | _ => false end.

(** [run(cmd, timeout)] returns [(returncode, stdout, stderr)]. *)
Definition run (h : Host) (cmd : list str) (timeout : Z) : M (Z * str * str) :=
  try_except
    ('(returncode, stdout, stderr) <- spawn h cmd timeout ;;
     let stdout_b := bytes_or_empty stdout in
     let stderr_b := bytes_or_empty stderr in
     out <- lift (_decode h stdout_b) ;;
     err <- lift (_decode h stderr_b) ;;
     ret (returncode, out, err))
    (fun e =>
       if is_TimeoutExpired e
       then ret (124, [], lit "Timeout: " ++ exn_str e)
       else ret (125, [], lit "Exception: " ++ exn_repr e)).

(** ** Data structures *)

Module Status.
(** The [status] of a result: ['ok'|'damaged'|'error'|'skipped']. *)
Inductive t := ok | damaged | error | skipped.

Definition eqb (a b : t) : bool :=
  match a, b with
  | ok, ok | damaged, damaged | error, error | skipped, skipped => true
  | _, _ => false
  end.
End Status.

Module FileResult.
Record t := make {
  path : Path;
  ok : bool;
  status : Status.t;
  reason : str;
  mode : str;
  duration_ms : Z
}.
End FileResult.

Definition FAST_BASIS : str :=
  utf8_lit "fast：仅进行容器/元数据探测（ffprobe + exiftool），不解码像素；速度快，可能漏检深层损坏。".

Definition MEDIUM_BASIS : str :=
  utf8_lit "medium：在 fast 基础上，额外用 ffmpeg 解码**首帧**（图像/视频），能发现大多数解码层错误。".

Definition SLOW_BASIS : str :=
  utf8_lit "slow：对视频执行**全轨道完整解码**（所有帧/音频样本）到空设备，最严格但最慢；图像等效于 medium（单帧即完整）。".

(** A Python [set] of strings, by its elements. *)
Definition mem (x : str) (xs : list str) : bool := existsb (str_eqb x) xs.

Definition is_image (h : Host) (path : Path) (image_exts : list str) : bool :=
  mem (str_lower h (suffix path)) image_exts.

Definition is_video (h : Host) (path : Path) (video_exts : list str) : bool :=
  mem (str_lower h (suffix path)) video_exts.

(** The command lines of the three tools. *)
Definition ffprobe_cmd (path : Path) : list str :=
  [lit "ffprobe"; lit "-v"; lit "error";
   lit "-show_entries";
   lit "format=format_name:stream=codec_name,codec_type";
   lit "-of"; lit "json"; path].

Definition exiftool_cmd (path : Path) : list str :=
  [lit "exiftool"; lit "-fast"; lit "-fast2"; lit "-n"; lit "-S";
   lit "-s"; lit "-s"; lit "-s"; path].

Definition first_frame_cmd (path : Path) : list str :=
  [lit "ffmpeg"; lit "-v"; lit "error"; lit "-hide_banner"; lit "-nostdin";
   lit "-i"; path; lit "-frames:v"; lit "1"; lit "-an";
   lit "-f"; lit "null"; lit "-"].

Definition full_decode_cmd (path : Path) : list str :=
  [lit "ffmpeg"; lit "-v"; lit "error"; lit "-hide_banner"; lit "-nostdin";
   lit "-i"; path; lit "-map"; lit "0"; lit "-f"; lit "null"; lit "-"].

(** [any(flags) if flags else False] *)
Definition any_flag (flags : list bool) : bool :=
  match flags with
  | [] => false
  | _ => existsb (fun b => b) flags
  end.

Definition check_fast (h : Host) (path : Path) (timeout : Z) : M (bool * str) :=
  let diagnostics : list str := [] in
  let ok_flags : list bool := [] in
  '(diagnostics, ok_flags) <-
    (if HAS_FFPROBE h then
       '(rc, out, err) <- run h (ffprobe_cmd path) timeout ;;
       let ffprobe_ok := (rc =? 0) && is_empty (strip err) in
       ret (diagnostics ++
              [lit "ffprobe rc=" ++ str_of_int rc
               ++ lit " err_len=" ++ str_of_int (len (strip err))],
            ok_flags ++ [ffprobe_ok])
     else
       ret (diagnostics ++ [lit "ffprobe unavailable"], ok_flags)) ;;
  '(diagnostics, ok_flags) <-
    (if HAS_EXIFTOOL h then
       '(rc2, out2, err2) <- run h (exiftool_cmd path) timeout ;;
       let exif_ok :=
         (rc2 =? 0)
         && (negb (contains (lit "Error") out2) && is_empty (strip err2)) in
       ret (diagnostics ++
              [lit "exiftool rc=" ++ str_of_int rc2
               ++ lit " has_error_token="
               ++ str_of_bool (contains (lit "Error") out2)],
            ok_flags ++ [exif_ok])
     else
       ret (diagnostics ++ [lit "exiftool unavailable"], ok_flags)) ;;
  let ok := any_flag ok_flags in
  let reason := join (lit "; ") diagnostics in
  ret (ok, reason).

Definition check_decode_first_frame (h : Host) (path : Path) (timeout : Z)
  : M (bool * str) :=
  if negb (HAS_FFMPEG h) then ret (false, lit "ffmpeg unavailable")
  else
    '(rc, out, err) <- run h (first_frame_cmd path) timeout ;;
    let ok := (rc =? 0) && is_empty (strip err) in
    ret (ok, lit "ffmpeg[first-frame] rc=" ++ str_of_int rc
             ++ lit " err_len=" ++ str_of_int (len (strip err))).

Definition check_full_decode (h : Host) (path : Path) (timeout : Z)
  : M (bool * str) :=
  if negb (HAS_FFMPEG h) then ret (false, lit "ffmpeg unavailable")
  else
    '(rc, out, err) <- run h (full_decode_cmd path) timeout ;;
    let ok := (rc =? 0) && is_empty (strip err) in
    ret (ok, lit "ffmpeg[full-decode] rc=" ++ str_of_int rc
             ++ lit " err_len=" ++ str_of_int (len (strip err))).

(** ** File auditor *)

Section Auditor.

(** [audit_one] finds the three evaluators by name when it runs. The auditor
    is written over the table of evaluators it calls, so that its [try] can
    be studied against callees that raise. Each call is recorded in the
    trace. *)
Variable evaluators : evaluator -> Path -> Z -> M (bool * str).

Definition invoke (e : evaluator) (path : Path) (timeout : Z) : M (bool * str) :=
  log (Invoke e) ;; evaluators e path timeout.

Variable h : Host.

(** The body of the [try] of [audit_one]. *)
Definition audit_body (t0 : Q) (path : Path) (mode : str) (timeout : Z)
  (image_exts video_exts : list str) : M FileResult.t :=
  if negb (is_image h path image_exts || is_video h path video_exts) then
    t1 <- now h ;;
    ret (FileResult.make path true Status.skipped
           (lit "unsupported extension") mode (elapsed_ms t0 t1))
  else
    '(ok_fast, why_fast) <- invoke ContainerProbe path timeout ;;
    if str_eqb mode (lit "fast") then
      let status := if ok_fast then Status.ok else Status.damaged in
      let reason := FAST_BASIS ++ lit " | diag: " ++ why_fast in
      t1 <- now h ;;
      ret (FileResult.make path ok_fast status reason mode (elapsed_ms t0 t1))
    else
      '(ok_first, why_first) <- invoke FirstFrameDecode path timeout ;;
      if str_eqb mode (lit "medium") then
        let ok := ok_fast && ok_first in
        let status := if ok then Status.ok else Status.damaged in
        let reason :=
          MEDIUM_BASIS ++ lit " | fast: " ++ why_fast
          ++ lit " | first-frame: " ++ why_first in
        t1 <- now h ;;
        ret (FileResult.make path ok status reason mode (elapsed_ms t0 t1))
      else
        '(ok_full, why_full) <- invoke FullTrackDecode path timeout ;;
        let ok := ok_full in
        let status := if ok then Status.ok else Status.damaged in
        let reason :=
          SLOW_BASIS ++ lit " | fast: " ++ why_fast
          ++ lit " | first-frame: " ++ why_first
          ++ lit " | full: " ++ why_full in
        t1 <- now h ;;
        ret (FileResult.make path ok status reason mode (elapsed_ms t0 t1)).

Definition audit_with (path : Path) (mode : str) (timeout : Z)
  (image_exts video_exts : list str) : M FileResult.t :=
  t0 <- now h ;;
  try_except
    (audit_body t0 path mode timeout image_exts video_exts)
    (fun e =>
       t1 <- now h ;;
       ret (FileResult.make path false Status.error
              (lit "Exception: " ++ exn_repr e) mode (elapsed_ms t0 t1))).

End Auditor.

(** The evaluators of the program. *)
Definition tier_evaluators (h : Host) (e : evaluator)
  : Path -> Z -> M (bool * str) :=
  match e with
  | ContainerProbe => check_fast h
  | FirstFrameDecode => check_decode_first_frame h
  | FullTrackDecode => check_full_decode h
  end.

Definition audit_one (h : Host) (path : Path) (mode : str) (timeout : Z)
  (image_exts video_exts : list str) : M FileResult.t :=
  audit_with (tier_evaluators h) h path mode timeout image_exts video_exts.

(** ** Scheduler and aggregator: the counting loop of [main] *)

Module Tally.
Record t := make {
  checked : Z;
  ok_count : Z;
  bad_count : Z;
  damaged_list : list FileResult.t
}.

Definition zero : t := make 0 0 0 [].
End Tally.

(** One turn of the loop over the completed futures, for the result [res]. *)
Definition count (t : Tally.t) (res : FileResult.t) : Tally.t :=
  let checked := Tally.checked t + 1 in
  if Status.eqb (FileResult.status res) Status.ok
     || (FileResult.ok res && Status.eqb (FileResult.status res) Status.skipped)
  then
    Tally.make checked (Tally.ok_count t + 1) (Tally.bad_count t)
      (Tally.damaged_list t)
  else if Status.eqb (FileResult.status res) Status.damaged
          || Status.eqb (FileResult.status res) Status.error
  then
    Tally.make checked (Tally.ok_count t) (Tally.bad_count t + 1)
      (Tally.damaged_list t ++ [res])
  else
    Tally.make checked (Tally.ok_count t) (Tally.bad_count t)
      (Tally.damaged_list t).

(** The pool runs [audit_one] once for every path and the main thread takes
    the results as they complete. [completed] lists the paths in completion
    order; as a result depends on its own task only, the tasks are laid out
    one after the other in that order. [fut.result()] hands over the result
    of the task, or raises what the task raised. *)
Fixpoint as_completed (h : Host) (mode : str) (timeout : Z)
  (image_exts video_exts : list str) (completed : list Path) (t : Tally.t)
  : M Tally.t :=
  match completed with
  | [] => ret t
  | p :: rest =>
      res <- audit_one h p mode timeout image_exts video_exts ;;
      as_completed h mode timeout image_exts video_exts rest (count t res)
  end.

(** The same loop for an auditor that calls the evaluators [evaluators];
    [as_completed] is the loop for the evaluators of the program. *)
Fixpoint as_completed_with
  (evaluators : evaluator -> Path -> Z -> M (bool * str))
  (h : Host) (mode : str) (timeout : Z)
  (image_exts video_exts : list str) (completed : list Path) (t : Tally.t)
  : M Tally.t :=
  match completed with
  | [] => ret t
  | p :: rest =>
      res <- audit_with evaluators h p mode timeout image_exts video_exts ;;
      as_completed_with evaluators h mode timeout image_exts video_exts rest
        (count t res)
  end.

(** ** Auxiliary notions for the statements *)

(** The file has one of the active extensions. *)
Definition supported (h : Host) (path : Path) (image_exts video_exts : list str)
  : bool :=
  is_image h path image_exts || is_video h path video_exts.

Definition start : State := {| ticks := 0; trace := [] |}.

(** The triple [run] returns for a command on a host. *)
Definition outcome (h : Host) (cmd : list str) (timeout : Z) : Z * str * str :=
  match fst (run h cmd timeout start) with
  | Return v => v
  | Raise _ => (125, [], [])
  end.

(** The pair an evaluator returns for a file on a host. *)
Definition verdict_of (h : Host) (e : evaluator) (path : Path) (timeout : Z)
  : bool * str :=
  match fst (tier_evaluators h e path timeout start) with
  | Return v => v
  | Raise _ => (false, [])
  end.

(** The process behind a command ran out of time. *)
Definition timed_out (h : Host) (cmd : list str) (timeout : Z) : Prop :=
  exists e, subprocess_run h cmd timeout = Raised e
            /\ exn_class_of e = TimeoutExpired.

(** The process behind a command could not be run for another reason. *)
Definition launch_failed (h : Host) (cmd : list str) (timeout : Z) : Prop :=
  exists e, subprocess_run h cmd timeout = Raised e
            /\ exn_class_of e <> TimeoutExpired.

(** The state [s] after the events [evs]. *)
Definition extend (s : State) (evs : list event) : State :=
  {| ticks := ticks s; trace := trace s ++ evs |}.

(** The state [s] after one more reading of the clock. *)
Definition tick (s : State) : State :=
  {| ticks := S (ticks s); trace := trace s |}.

(** The check shared by the probe and the two decodes: exit status zero and
    nothing but white space on the error stream. *)
Definition clean_exit (o : Z * str * str) : bool :=
  let '(rc, _, err) := o in (rc =? 0) && is_empty (strip err).

(** The check of the metadata tool: moreover no [Error] in its output. *)
Definition clean_metadata (o : Z * str * str) : bool :=
  let '(rc, out, err) := o in
  (rc =? 0) && (negb (contains (lit "Error") out) && is_empty (strip err)).

(** The line of the diagnostic about a probe or decode tool. *)
Definition exit_diag (tool : str) (o : Z * str * str) : str :=
  let '(rc, _, err) := o in
  tool ++ lit " rc=" ++ str_of_int rc
  ++ lit " err_len=" ++ str_of_int (len (strip err)).

Definition metadata_diag (o : Z * str * str) : str :=
  let '(rc, out, _) := o in
  lit "exiftool rc=" ++ str_of_int rc
  ++ lit " has_error_token=" ++ str_of_bool (contains (lit "Error") out).

(** The processes an evaluator starts. *)
Definition spawns (h : Host) (e : evaluator) (path : Path) (timeout : Z)
  : list event :=
  match e with
  | ContainerProbe =>
      (if HAS_FFPROBE h then [Spawn (ffprobe_cmd path) timeout] else [])
      ++ (if HAS_EXIFTOOL h then [Spawn (exiftool_cmd path) timeout] else [])
  | FirstFrameDecode =>
      if HAS_FFMPEG h then [Spawn (first_frame_cmd path) timeout] else []
  | FullTrackDecode =>
      if HAS_FFMPEG h then [Spawn (full_decode_cmd path) timeout] else []
  end.

(** The consistency every result of the auditor has. *)
Definition well_formed (supp : bool) (path : Path) (mode : str)
  (fr : FileResult.t) : Prop :=
  FileResult.path fr = path
  /\ FileResult.mode fr = mode
  /\ (FileResult.status fr = Status.skipped <-> supp = false)
  /\ (FileResult.status fr = Status.skipped -> FileResult.ok fr = true)
  /\ (FileResult.status fr = Status.ok -> FileResult.ok fr = true)
  /\ (FileResult.status fr = Status.damaged -> FileResult.ok fr = false)
  /\ (FileResult.status fr = Status.error -> FileResult.ok fr = false).

(** The events one audit adds to the trace: each evaluator is announced and
    followed by the processes it starts. *)
Definition announced (h : Host) (e : evaluator) (path : Path) (timeout : Z)
  : list event :=
  Invoke e :: spawns h e path timeout.

Definition audit_events (h : Host) (path : Path) (mode : str) (timeout : Z)
  (image_exts video_exts : list str) : list event :=
  if supported h path image_exts video_exts then
    announced h ContainerProbe path timeout
    ++ (if str_eqb mode (lit "fast") then []
        else announced h FirstFrameDecode path timeout
             ++ (if str_eqb mode (lit "medium") then []
                 else announced h FullTrackDecode path timeout))
  else [].

(** Two hosts with the same tools installed. *)
Definition same_tools (h1 h2 : Host) : Prop :=
  HAS_FFPROBE h1 = HAS_FFPROBE h2
  /\ HAS_FFMPEG h1 = HAS_FFMPEG h2
  /\ HAS_EXIFTOOL h1 = HAS_EXIFTOOL h2.

(** Two hosts on which every process ends the same way. *)
Definition same_processes (h1 h2 : Host) : Prop :=
  forall cmd timeout, subprocess_run h1 cmd timeout = subprocess_run h2 cmd timeout.

(** Two hosts with the same locale, codecs and case mapping. *)
Definition same_text (h1 h2 : Host) : Prop :=
  getpreferredencoding h1 = getpreferredencoding h2
  /\ (forall enc, codec h1 enc = codec h2 enc)
  /\ (forall s, str_lower h1 s = str_lower h2 s).

(** The counters agree: every result counted is either in [ok_count] or in
    [bad_count], and the bad ones are those of the damaged list. *)
Definition counted (t : Tally.t) : Prop :=
  Tally.checked t = Tally.ok_count t + Tally.bad_count t
  /\ Z.of_nat (List.length (Tally.damaged_list t)) = Tally.bad_count t.

(** Two hosts on which [run] returns the same triple for every command run
    with the given timeout. *)
Definition same_outcomes (h1 h2 : Host) (timeout : Z) : Prop :=
  forall cmd, outcome h1 cmd timeout = outcome h2 cmd timeout.

(** ** A host to compute with *)

Module Fixture.

Definition ascii_lower (s : str) : str :=
  map (fun c => if ((65 <=? c) && (c <=? 90))%N then (c + 32)%N else c) s.

(** A codec that accepts ASCII bytes only. *)
Definition ascii_only (buf : bytes) : option str :=
  if forallb (fun b => (Byte.to_N b <? 128)%N) buf
  then Some (map Byte.to_N buf) else None.

Definition codecs (enc : str) : option (bytes -> option str) :=
  if str_eqb enc (lit "UTF-8") then Some (utf8_decode Strict)
  else if str_eqb enc (lit "gbk") || str_eqb enc (lit "cp936")
  then Some ascii_only
  else None.

Definition FileNotFoundError : exn :=
  {| exn_class_of := OSError;
     exn_str := lit "[Errno 2] No such file or directory";
     exn_repr := lit "FileNotFoundError(2, 'No such file or directory')" |}.

Definition TimeoutExpired_ : exn :=
  {| exn_class_of := TimeoutExpired;
     exn_str := lit "Command timed out after 120 seconds";
     exn_repr := lit "TimeoutExpired(120)" |}.

Definition MemoryError : exn :=
  {| exn_class_of := OtherException;
     exn_str := [];
     exn_repr := lit "MemoryError()" |}.

Fixpoint lookup (table : list (list str * spawned)) (cmd : list str) : spawned :=
  match table with
  | [] => Raised FileNotFoundError
  | (c, r) :: rest =>
      if list_eq_dec (list_eq_dec N.eq_dec) c cmd then r else lookup rest cmd
  end.

(** A host with the given tools, whose processes behave as [table] says; the
    clock shows [t0] at first and advances by [dt] at every reading. *)
Definition host (ffprobe ffmpeg exiftool : bool)
  (table : list (list str * spawned)) (t0 dt : Q) : Host :=
  {| HAS_FFPROBE := ffprobe;
     HAS_FFMPEG := ffmpeg;
     HAS_EXIFTOOL := exiftool;
     subprocess_run := fun cmd _ => lookup table cmd;
     time_time := fun n => (t0 + inject_Z (Z.of_nat n) * dt)%Q;
     getpreferredencoding := lit "UTF-8";
     codec := codecs;
     str_lower := ascii_lower |}.

Definition exited (rc : Z) (stdout stderr : string) : spawned :=
  CompletedProcess rc (Some (list_byte_of_string stdout))
    (Some (list_byte_of_string stderr)).

Definition clean : spawned := exited 0 "" "".

Definition failing : spawned :=
  exited 1 "" "Invalid data found when processing input".

Definition exts : list str := [lit ".jpg"; lit ".mp4"].

Definition clip : Path := lit "/media/clip.MP4".
Definition note : Path := lit "/media/note.txt".

(** All tools installed and content with [clip]. *)
Definition healthy (t0 dt : Q) : Host :=
  host true true true
    [(ffprobe_cmd clip, clean); (exiftool_cmd clip, clean);
     (first_frame_cmd clip, clean); (full_decode_cmd clip, clean)] t0 dt.

Definition h0 : Host := healthy 0 (1 # 4).

(** The probe and the first frame fail, the full decode succeeds. *)
Definition authoritative : Host :=
  host true true false
    [(ffprobe_cmd clip, failing); (first_frame_cmd clip, failing);
     (full_decode_cmd clip, clean)] 0 (1 # 4).

(** Metadata fine, first frame broken. *)
Definition broken_frame : Host :=
  host true true true
    [(ffprobe_cmd clip, clean); (exiftool_cmd clip, clean);
     (first_frame_cmd clip, failing)] 0 (1 # 4).

(** The probe exits with status zero and a lone line feed on its error
    stream; there is no metadata tool. *)
Definition blank_stderr : Host :=
  host true false false
    [(ffprobe_cmd clip,
      CompletedProcess 0 (Some []) (Some [x0a]%byte))] 0 (1 # 4).

(** The probe runs out of time, the metadata tool is content. *)
Definition probe_hangs : Host :=
  host true true true
    [(ffprobe_cmd clip, Raised TimeoutExpired_); (exiftool_cmd clip, clean)]
    0 (1 # 4).

(** Every process runs out of time. *)
Definition all_hang : Host :=
  host true true true
    [(ffprobe_cmd clip, Raised TimeoutExpired_);
     (exiftool_cmd clip, Raised TimeoutExpired_);
     (first_frame_cmd clip, Raised TimeoutExpired_);
     (full_decode_cmd clip, Raised TimeoutExpired_)] 0 (1 # 4).

(** Only the metadata tool and the decoder are installed; the metadata tool
    writes seven characters to its error stream, the decoder one character
    between white space. *)
Definition chatty : Host :=
  host false true true
    [(exiftool_cmd clip, exited 0 "" "warning");
     (first_frame_cmd clip, exited 1 "" "  x ");
     (full_decode_cmd clip, exited 1 "" "  x ")] 0 (1 # 4).

(** Evaluators of which the first-frame decode raises. *)
Definition faulty (h : Host) (e : evaluator) : Path -> Z -> M (bool * str) :=
  match e with
  | FirstFrameDecode => fun _ _ => raise MemoryError
  | _ => tier_evaluators h e
  end.

End Fixture.

(** ** Start-up, extension lists and the directory walk *)

Section Startup.

(** [subprocess.run(cmd, stdout=DEVNULL, stderr=DEVNULL)], the call of the
    start-up probes: no timeout, nothing captured. *)
Variable launch : list str -> spawned.

(** [cmd_exists(cmd)]: true unless starting [cmd -version] raises. *)
Definition cmd_exists (cmd : str) : bool :=
  match launch [cmd; lit "-version"] with
  | CompletedProcess _ _ _ => true
  | Raised _ => false
  end.

(** The value given to [HAS_EXIFTOOL]: [exiftool -ver] is run first; the
    completed process is a true value, so the flag is
    [returncode == 0 or cmd_exists('exiftool')], and false when the run
    raises. *)
Definition probe_exiftool : bool :=
  match launch [lit "exiftool"; lit "-ver"] with
  | CompletedProcess returncode _ _ =>
      (returncode =? 0) || cmd_exists (lit "exiftool")
  | Raised _ => false
  end.

(** The flags of a host are those the start-up probes computed. *)
Definition started (h : Host) : Prop :=
  HAS_FFPROBE h = cmd_exists (lit "ffprobe")
  /\ HAS_FFMPEG h = cmd_exists (lit "ffmpeg")
  /\ HAS_EXIFTOOL h = probe_exiftool.

End Startup.

Definition DEFAULT_IMAGE_EXTS : list str :=
  [lit ".jpg"; lit ".jpeg"; lit ".png"; lit ".gif"; lit ".bmp"; lit ".tif";
   lit ".tiff"; lit ".webp"; lit ".heic"; lit ".heif"; lit ".dng";
   lit ".cr2"; lit ".cr3"; lit ".nef"; lit ".arw"; lit ".raf"; lit ".rw2";
   lit ".orf"].

Definition DEFAULT_VIDEO_EXTS : list str :=
  [lit ".mp4"; lit ".m4v"; lit ".mov"; lit ".avi"; lit ".mkv"; lit ".webm";
   lit ".wmv"; lit ".flv"; lit ".mts"; lit ".m2ts"; lit ".ts"; lit ".3gp";
   lit ".3gpp"; lit ".mxf"; lit ".mpg"; lit ".mpeg"; lit ".vob"].

(** [s.split(sep)] for a separator of one character. *)
Fixpoint split (sep : N) (s : str) : list str :=
  match s with
  | [] => [[]]
  | c :: s' =>
      if (c =? sep)%N then [] :: split sep s'
      else match split sep s' with
           | p :: ps => (c :: p) :: ps
           | [] => [[c]]
           end
  end.

(** One element of the set comprehension of [main]:
    [e.strip().lower() if e.strip().startswith('.')
     else f'.{e.strip().lower()}']. *)
Definition normalise_ext (h : Host) (e : str) : str :=
  if starts_with (lit ".") (strip e) then str_lower h (strip e)
  else lit "." ++ str_lower h (strip e).

(** The set built from [--include-exts]: the entries between commas that
    are not blank, each normalised. *)
Definition include_exts (h : Host) (arg : str) : list str :=
  map (normalise_ext h)
    (filter (fun e => negb (is_empty (strip e))) (split 44 arg)).

(** The pair [(image_exts, video_exts)] that [main] passes to the audits. *)
Definition extension_sets (h : Host) (arg : str) : list str * list str :=
  if negb (is_empty arg) then
    let exts := include_exts h arg in (exts, exts)
  else (DEFAULT_IMAGE_EXTS, DEFAULT_VIDEO_EXTS).

Section Walk.

(** [Path(dirpath) / fn], which the source guards against an exception. *)
Variable joinpath : str -> str -> result Path.




End Walk.

(** ** Further notions for the statements *)

(** Whether the audit of a file gives [ok = True] on a host. *)
Definition passes (h : Host) (mode : str) (timeout : Z)
  (image_exts video_exts : list str) (path : Path) : bool :=
  match fst (audit_one h path mode timeout image_exts video_exts start) with
  | Return fr => FileResult.ok fr
  | Raise _ => false
  end.

(** The processes among some events. *)
Definition is_spawn (ev : event) : bool :=
  match ev with Spawn _ _ => true | Invoke _ => false end.

(** A string that holds no separator. *)
Definition is_filename (fn : str) : Prop := ~ In 47%N fn.

(** Lower-casing leaves a leading dot in place. *)
Definition dot_stable (h : Host) : Prop :=
  forall s, str_lower h (46%N :: s) = 46%N :: str_lower h s.

(** Sample data for the start-up probes and the walk. *)
Module Sample.

(** No program can be started. *)
Definition nothing_installed (cmd : list str) : spawned :=
  Raised Fixture.FileNotFoundError.

(** Only exiftool is there, and it rejects [-ver] with status 1. *)
Definition odd_exiftool (cmd : list str) : spawned :=
  if list_eq_dec N.eq_dec (hd [] cmd) (lit "exiftool")
  then CompletedProcess 1 None None
  else Raised Fixture.FileNotFoundError.

(** A host with no tools at all. *)
Definition bare : Host := Fixture.host false false false [] 0 (1 # 4).

(** A host without the decoder. *)
Definition no_decoder : Host :=
  Fixture.host true false true
    [(ffprobe_cmd Fixture.clip, Fixture.clean);
     (exiftool_cmd Fixture.clip, Fixture.clean)] 0 (1 # 4).

(** A host whose decoder cannot be started any more. *)
Definition decoder_gone : Host :=
  Fixture.host true true true
    [(ffprobe_cmd Fixture.clip, Fixture.clean);
     (exiftool_cmd Fixture.clip, Fixture.clean)] 0 (1 # 4).

Definition join (dirpath fn : str) : result Path :=
  if is_empty fn then Raise Fixture.MemoryError
  else Return (dirpath ++ lit "/" ++ fn).

Definition tree : list (str * list str * list str) :=
  [(lit "/media", [lit "old"], [lit "clip.MP4"; lit "note.txt"]);
   (lit "/media/old", [], [lit "bad.jpg"])].

Definition bad : Path := lit "/media/old/bad.jpg".

(** A host content with [clip] and unhappy with [bad]. *)
Definition mixed : Host :=
  Fixture.host true true true
    [(ffprobe_cmd Fixture.clip, Fixture.clean);
     (exiftool_cmd Fixture.clip, Fixture.clean);
     (ffprobe_cmd bad, Fixture.failing);
     (exiftool_cmd bad, Fixture.failing)] 0 (1 # 4).

(** The part of code page 1252 the examples need: ASCII, and the byte 85
    (hexadecimal), which is the horizontal ellipsis U+2026. *)
Definition cp1252 (buf : bytes) : option str :=
  if forallb (fun b => (Byte.to_N b <? 128) || (Byte.to_N b =? 133))%N buf
  then Some (map (fun b => if (Byte.to_N b =? 133)%N then 8230%N
                           else Byte.to_N b) buf)
  else None.

Definition codecs (enc : str) : option (bytes -> option str) :=
  if str_eqb enc (lit "cp1252") then Some cp1252 else Fixture.codecs enc.

(** A host with the probe only, whose preferred encoding is [locale]; the
    probe exits with status zero and writes the single byte 85 to its error
    stream. *)
Definition localised (locale : str) : Host :=
  {| HAS_FFPROBE := true;
     HAS_FFMPEG := false;
     HAS_EXIFTOOL := false;
     subprocess_run := fun cmd _ =>
       Fixture.lookup
         [(ffprobe_cmd Fixture.clip,
           CompletedProcess 0 (Some []) (Some [x85]%byte))] cmd;
     time_time := fun n => inject_Z (Z.of_nat n);
     getpreferredencoding := locale;
     codec := codecs;
     str_lower := Fixture.ascii_lower |}.

End Sample.

(** * Properties *)

(** ** Text and codecs *)

Lemma str_eqb_eq (a b : str) : str_eqb a b = true <-> a = b.
Proof.
  unfold str_eqb. destruct (list_eq_dec N.eq_dec a b); split; congruence.
Qed.

Lemma str_eqb_refl (a : str) : str_eqb a a = true.
Proof. now apply str_eqb_eq. Qed.

Lemma starts_with_app (n post : str) : starts_with n (n ++ post) = true.
Proof.
  induction n as [|c n IH]; simpl; [reflexivity|].
  now rewrite N.eqb_refl, IH.
Qed.

Lemma contains_here (n post : str) : contains n (n ++ post) = true.
Proof.
  destruct (n ++ post) eqn:E; simpl; rewrite <- E, starts_with_app; reflexivity.
Qed.

Lemma contains_skip (n pre hay : str) :
  contains n hay = true -> contains n (pre ++ hay) = true.
Proof.
  intros H. induction pre as [|c pre IH]; simpl; [exact H|].
  rewrite IH. apply orb_true_r.
Qed.

(** A string contains each of the pieces it is put together from. *)
Lemma contains_middle (n pre post : str) :
  contains n (pre ++ n ++ post) = true.
Proof. apply contains_skip, contains_here. Qed.

Lemma utf8_go_replace_total (buf : bytes) :
  forall st out, exists s, utf8_go Replace st out buf = Some s.
Proof.
  induction buf as [|b rest IH]; intros st out; simpl.
  - destruct st; eauto.
  - destruct st as [|need acc lo hi].
    + destruct (classify (to_N b)); apply IH.
    + destruct ((lo <=? to_N b)%N && (to_N b <=? hi)%N).
      * destruct need; apply IH.
      * destruct (classify (to_N b)); apply IH.
Qed.

Lemma utf8_replace_total (buf : bytes) :
  exists s, utf8_decode Replace buf = Some s.
Proof. apply utf8_go_replace_total. Qed.

Lemma decode_latin1 (h : Host) (buf : bytes) :
  bytes_decode h (lit "latin-1") Strict buf = Return (latin1_decode buf).
Proof. reflexivity. Qed.

Lemma decode_replace (h : Host) (buf : bytes) :
  exists s, bytes_decode h (lit "utf-8") Replace buf = Return s.
Proof.
  destruct (utf8_replace_total buf) as [s Hs]. exists s.
  unfold bytes_decode. rewrite str_eqb_refl, Hs. reflexivity.
Qed.

(** The loop stops at the first encoding that accepts the bytes. *)
Lemma decode_loop_first (h : Host) (buf : bytes) (pre : list str) :
  forall enc post s,
    Forall (fun e => exists x, bytes_decode h e Strict buf = Raise x) pre ->
    bytes_decode h enc Strict buf = Return s ->
    decode_loop h buf (pre ++ enc :: post) = Return s.
Proof.
  induction pre as [|e pre IH]; intros enc post s Hpre Henc; simpl.
  - now rewrite Henc.
  - inversion Hpre as [|? ? [x Hx] Hrest]; subst.
    rewrite Hx. now apply IH.
Qed.

Lemma decode_loop_total (h : Host) (buf : bytes) (encs : list str) :
  exists s, decode_loop h buf encs = Return s.
Proof.
  induction encs as [|enc rest IH]; simpl.
  - apply decode_replace.
  - destruct (bytes_decode h enc Strict buf); eauto.
Qed.

(** C8. For every byte string and every host (whatever its preferred encoding
    and whatever its codecs accept), [_decode] returns a string and raises
    nothing. The encodings are tried in the order UTF-8, the preferred
    encoding of the host, GBK, CP936, Latin-1, and the first one that accepts
    the bytes gives the result; the decoding that comes after the loop,
    UTF-8 with invalid sequences replaced, cannot fail either. *)
Theorem decode_never_raises (h : Host) (buf : bytes) :
  (exists s, _decode h buf = Return s)
  /\ encodings h
     = [lit "utf-8"; or_else (getpreferredencoding h) (lit "utf-8");
        lit "gbk"; lit "cp936"; lit "latin-1"]
  /\ (forall pre enc post s,
         encodings h = pre ++ enc :: post ->
         Forall (fun e => exists x, bytes_decode h e Strict buf = Raise x) pre ->
         bytes_decode h enc Strict buf = Return s ->
         _decode h buf = Return s)
  /\ (exists s, decode_loop h buf [] = Return s
                /\ utf8_decode Replace buf = Some s).
Proof.
  split; [apply decode_loop_total|].
  split; [reflexivity|].
  split.
  - intros pre enc post s E Hpre Henc. unfold _decode. rewrite E.
    now apply decode_loop_first.
  - destruct (utf8_replace_total buf) as [s Hs]. exists s. split; [|exact Hs].
    simpl. unfold bytes_decode. rewrite str_eqb_refl, Hs. reflexivity.
Qed.

(** The decoders and the string functions on values the interpreter gives. *)

Example strip_blank : strip [32; 10; 9]%N = [].
Proof. reflexivity. Qed.

Example strip_inner : strip (lit "  a b ") = lit "a b".
Proof. reflexivity. Qed.

Example str_of_int_negative : str_of_int (-9) = lit "-9".
Proof. reflexivity. Qed.

Example contains_error : contains (lit "Error") (lit "File Error: x") = true.
Proof. reflexivity. Qed.

Example utf8_emoji :
  utf8_decode Strict [xf0; x9f; x98; x80]%byte = Some [128512%N].
Proof. reflexivity. Qed.

Example utf8_strict_rejects : utf8_decode Strict [x61; xff; x62]%byte = None.
Proof. reflexivity. Qed.

Example utf8_replace_truncated :
  utf8_decode Replace [xe4; xb8; x41]%byte = Some [65533; 65]%N.
Proof. reflexivity. Qed.

Example utf8_replace_surrogate :
  utf8_decode Replace [xed; xa0; x80]%byte = Some [65533; 65533; 65533]%N.
Proof. reflexivity. Qed.

Example utf8_replace_overlong :
  utf8_decode Replace [xc0; x80]%byte = Some [65533; 65533]%N.
Proof. reflexivity. Qed.

Example utf8_replace_cut_short :
  utf8_decode Replace [xf0; x9f; x98]%byte = Some [65533%N].
Proof. reflexivity. Qed.

Example utf8_replace_too_large :
  utf8_decode Replace [xf4; x90; x80; x80]%byte
  = Some [65533; 65533; 65533; 65533]%N.
Proof. reflexivity. Qed.

Example suffix_upper : suffix (lit "/media/clip.MP4") = lit ".MP4".
Proof. reflexivity. Qed.

Example suffix_hidden : suffix (lit "/a/.bashrc") = [].
Proof. reflexivity. Qed.

Example suffix_trailing_dot : suffix (lit "/a/x.") = [].
Proof. reflexivity. Qed.

Example suffix_last_only : suffix (lit "/a/x.tar.gz") = lit ".gz".
Proof. reflexivity. Qed.

Example suffix_of_directory_dot : suffix (lit "/a.b/c") = [].
Proof. reflexivity. Qed.

(** ** Process runner *)

Lemma extend_nil (s : State) : extend s [] = s.
Proof. destruct s; unfold extend; simpl. now rewrite app_nil_r. Qed.

Lemma extend_extend (s : State) (a b : list event) :
  extend (extend s a) b = extend s (a ++ b).
Proof. unfold extend; simpl. now rewrite app_assoc. Qed.

Lemma tick_extend (s : State) (a : list event) :
  tick (extend s a) = extend (tick s) a.
Proof. reflexivity. Qed.

Lemma outcome_completed (h : Host) (cmd : list str) (timeout rc : Z)
  (o e : option bytes) :
  subprocess_run h cmd timeout = CompletedProcess rc o e ->
  exists out err,
    _decode h (bytes_or_empty o) = Return out
    /\ _decode h (bytes_or_empty e) = Return err
    /\ outcome h cmd timeout = (rc, out, err).
Proof.
  intros H.
  destruct (decode_loop_total h (bytes_or_empty o) (encodings h)) as [out Ho].
  destruct (decode_loop_total h (bytes_or_empty e) (encodings h)) as [err He].
  exists out, err. repeat split; try assumption.
  unfold outcome, run, try_except, bind, spawn, log, lift, ret.
  cbn -[_decode]. rewrite H. cbn -[_decode]. unfold _decode at 1 2.
  rewrite Ho, He. reflexivity.
Qed.

Lemma outcome_raised (h : Host) (cmd : list str) (timeout : Z) (e : exn) :
  subprocess_run h cmd timeout = Raised e ->
  outcome h cmd timeout =
    if is_TimeoutExpired e
    then (124, [], lit "Timeout: " ++ exn_str e)
    else (125, [], lit "Exception: " ++ exn_repr e).
Proof.
  intros H. unfold outcome, run, try_except, bind, spawn, log, raise, ret.
  simpl. rewrite H. simpl. destruct (is_TimeoutExpired e); reflexivity.
Qed.

(** [run] returns its triple whatever the state, and adds one spawn to the
    trace. *)
Lemma run_returns (h : Host) (cmd : list str) (timeout : Z) (s : State) :
  run h cmd timeout s
  = (Return (outcome h cmd timeout), extend s [Spawn cmd timeout]).
Proof.
  destruct (subprocess_run h cmd timeout) as [rc o e|e] eqn:H.
  - destruct (outcome_completed h cmd timeout rc o e H)
      as (out & err & Ho & He & Hout).
    rewrite Hout.
    unfold run, try_except, bind, spawn, log, lift, ret. cbn -[_decode].
    rewrite H. cbn -[_decode]. rewrite Ho, He. reflexivity.
  - rewrite (outcome_raised h cmd timeout e H).
    unfold run, try_except, bind, spawn, log, raise, ret. simpl.
    rewrite H. simpl. destruct (is_TimeoutExpired e); reflexivity.
Qed.

Lemma outcome_timed_out (h : Host) (cmd : list str) (timeout : Z) :
  timed_out h cmd timeout ->
  exists e, subprocess_run h cmd timeout = Raised e
            /\ outcome h cmd timeout = (124, [], lit "Timeout: " ++ exn_str e).
Proof.
  intros (e & H & Hc). exists e. split; [exact H|].
  rewrite (outcome_raised h cmd timeout e H).
  unfold is_TimeoutExpired. now rewrite Hc.
Qed.

Lemma outcome_launch_failed (h : Host) (cmd : list str) (timeout : Z) :
  launch_failed h cmd timeout ->
  exists e, subprocess_run h cmd timeout = Raised e
            /\ outcome h cmd timeout
               = (125, [], lit "Exception: " ++ exn_repr e).
Proof.
  intros (e & H & Hc). exists e. split; [exact H|].
  rewrite (outcome_raised h cmd timeout e H).
  unfold is_TimeoutExpired. destruct (exn_class_of e); congruence.
Qed.

(** ** Tier evaluators *)

Lemma check_fast_returns (h : Host) (path : Path) (timeout : Z) (s : State) :
  check_fast h path timeout s
  = (Return
       (any_flag
          ((if HAS_FFPROBE h
            then [clean_exit (outcome h (ffprobe_cmd path) timeout)] else [])
           ++ (if HAS_EXIFTOOL h
               then [clean_metadata (outcome h (exiftool_cmd path) timeout)]
               else [])),
        join (lit "; ")
          [if HAS_FFPROBE h
           then exit_diag (lit "ffprobe") (outcome h (ffprobe_cmd path) timeout)
           else lit "ffprobe unavailable";
           if HAS_EXIFTOOL h
           then metadata_diag (outcome h (exiftool_cmd path) timeout)
           else lit "exiftool unavailable"]),
     extend s
       ((if HAS_FFPROBE h then [Spawn (ffprobe_cmd path) timeout] else [])
        ++ (if HAS_EXIFTOOL h then [Spawn (exiftool_cmd path) timeout] else []))).
Proof.
  unfold check_fast, bind.
  destruct (HAS_FFPROBE h), (HAS_EXIFTOOL h);
    rewrite ?run_returns;
    try destruct (outcome h (ffprobe_cmd path) timeout) as [[rc out] err];
    unfold ret; cbn [app];
    rewrite ?run_returns;
    try destruct (outcome h (exiftool_cmd path) timeout) as [[rc2 out2] err2];
    rewrite ?extend_extend, ?extend_nil; reflexivity.
Qed.

Lemma check_decode_first_frame_returns (h : Host) (path : Path) (timeout : Z)
  (s : State) :
  check_decode_first_frame h path timeout s
  = if HAS_FFMPEG h
    then (Return
            (clean_exit (outcome h (first_frame_cmd path) timeout),
             exit_diag (lit "ffmpeg[first-frame]")
               (outcome h (first_frame_cmd path) timeout)),
          extend s [Spawn (first_frame_cmd path) timeout])
    else (Return (false, lit "ffmpeg unavailable"), s).
Proof.
  unfold check_decode_first_frame, bind.
  destruct (HAS_FFMPEG h); [|reflexivity]. cbn [negb].
  rewrite run_returns.
  destruct (outcome h (first_frame_cmd path) timeout) as [[rc out] err].
  reflexivity.
Qed.

Lemma check_full_decode_returns (h : Host) (path : Path) (timeout : Z)
  (s : State) :
  check_full_decode h path timeout s
  = if HAS_FFMPEG h
    then (Return
            (clean_exit (outcome h (full_decode_cmd path) timeout),
             exit_diag (lit "ffmpeg[full-decode]")
               (outcome h (full_decode_cmd path) timeout)),
          extend s [Spawn (full_decode_cmd path) timeout])
    else (Return (false, lit "ffmpeg unavailable"), s).
Proof.
  unfold check_full_decode, bind.
  destruct (HAS_FFMPEG h); [|reflexivity]. cbn [negb].
  rewrite run_returns.
  destruct (outcome h (full_decode_cmd path) timeout) as [[rc out] err].
  reflexivity.
Qed.

(** Every evaluator returns its pair whatever the state, and raises
    nothing. *)
Lemma evaluator_returns (h : Host) (e : evaluator) (path : Path) (timeout : Z)
  (s : State) :
  tier_evaluators h e path timeout s
  = (Return (verdict_of h e path timeout), extend s (spawns h e path timeout)).
Proof.
  unfold verdict_of.
  destruct e; cbn [tier_evaluators spawns].
  - rewrite !check_fast_returns. reflexivity.
  - rewrite !check_decode_first_frame_returns.
    destruct (HAS_FFMPEG h); [reflexivity|]. now rewrite extend_nil.
  - rewrite !check_full_decode_returns.
    destruct (HAS_FFMPEG h); [reflexivity|]. now rewrite extend_nil.
Qed.

Lemma verdict_of_probe (h : Host) (path : Path) (timeout : Z) :
  verdict_of h ContainerProbe path timeout
  = (any_flag
       ((if HAS_FFPROBE h
         then [clean_exit (outcome h (ffprobe_cmd path) timeout)] else [])
        ++ (if HAS_EXIFTOOL h
            then [clean_metadata (outcome h (exiftool_cmd path) timeout)]
            else [])),
     join (lit "; ")
       [if HAS_FFPROBE h
        then exit_diag (lit "ffprobe") (outcome h (ffprobe_cmd path) timeout)
        else lit "ffprobe unavailable";
        if HAS_EXIFTOOL h
        then metadata_diag (outcome h (exiftool_cmd path) timeout)
        else lit "exiftool unavailable"]).
Proof.
  unfold verdict_of. cbn [tier_evaluators]. now rewrite check_fast_returns.
Qed.

Lemma verdict_of_first_frame (h : Host) (path : Path) (timeout : Z) :
  verdict_of h FirstFrameDecode path timeout
  = if HAS_FFMPEG h
    then (clean_exit (outcome h (first_frame_cmd path) timeout),
          exit_diag (lit "ffmpeg[first-frame]")
            (outcome h (first_frame_cmd path) timeout))
    else (false, lit "ffmpeg unavailable").
Proof.
  unfold verdict_of. cbn [tier_evaluators].
  rewrite check_decode_first_frame_returns. now destruct (HAS_FFMPEG h).
Qed.

Lemma verdict_of_full_decode (h : Host) (path : Path) (timeout : Z) :
  verdict_of h FullTrackDecode path timeout
  = if HAS_FFMPEG h
    then (clean_exit (outcome h (full_decode_cmd path) timeout),
          exit_diag (lit "ffmpeg[full-decode]")
            (outcome h (full_decode_cmd path) timeout))
    else (false, lit "ffmpeg unavailable").
Proof.
  unfold verdict_of. cbn [tier_evaluators].
  rewrite check_full_decode_returns. now destruct (HAS_FFMPEG h).
Qed.

(** The evaluator called under its name in the source returns the pair
    [verdict_of] gives, in every state. *)
Lemma check_fast_value (h : Host) (path : Path) (timeout : Z) (s : State) :
  fst (check_fast h path timeout s)
  = Return (verdict_of h ContainerProbe path timeout).
Proof.
  pose proof (evaluator_returns h ContainerProbe path timeout s) as H.
  cbn [tier_evaluators] in H. now rewrite H.
Qed.

Lemma check_decode_first_frame_value (h : Host) (path : Path) (timeout : Z)
  (s : State) :
  fst (check_decode_first_frame h path timeout s)
  = Return (verdict_of h FirstFrameDecode path timeout).
Proof.
  pose proof (evaluator_returns h FirstFrameDecode path timeout s) as H.
  cbn [tier_evaluators] in H. now rewrite H.
Qed.

Lemma check_full_decode_value (h : Host) (path : Path) (timeout : Z)
  (s : State) :
  fst (check_full_decode h path timeout s)
  = Return (verdict_of h FullTrackDecode path timeout).
Proof.
  pose proof (evaluator_returns h FullTrackDecode path timeout s) as H.
  cbn [tier_evaluators] in H. now rewrite H.
Qed.

(** ** File auditor *)

Lemma status_eqb_eq (a b : Status.t) : Status.eqb a b = true <-> a = b.
Proof. destruct a, b; simpl; split; congruence. Qed.

Ltac run_evaluator :=
  match goal with
  | |- context [?ev ?e ?p ?t ?s] =>
      match type of (ev e p t s) with
      | (result (bool * str) * State)%type =>
          let v := fresh "v" in let x := fresh "x" in
          let s' := fresh "s" in let b := fresh "b" in
          destruct (ev e p t s) as [[[b v]|x] s']
      end
  end.

Ltac well_formed_case :=
  eexists; eexists; split; [reflexivity|];
  unfold well_formed; cbn;
  repeat split; intros; try discriminate; try reflexivity; try congruence.

(** Whatever the evaluators do, the auditor returns a consistent result. *)
Lemma audit_with_returns (evaluators : evaluator -> Path -> Z -> M (bool * str))
  (h : Host) (path : Path) (mode : str) (timeout : Z)
  (image_exts video_exts : list str) (s : State) :
  exists fr s',
    audit_with evaluators h path mode timeout image_exts video_exts s
    = (Return fr, s')
    /\ well_formed (supported h path image_exts video_exts) path mode fr.
Proof.
  unfold audit_with, audit_body, supported, try_except, bind, now, invoke, log,
    ret.
  destruct (is_image h path image_exts || is_video h path video_exts);
    cbn [negb]; [|well_formed_case].
  run_evaluator; [|well_formed_case].
  destruct (str_eqb mode (lit "fast")); [destruct b; well_formed_case|].
  run_evaluator; [|well_formed_case].
  destruct (str_eqb mode (lit "medium"));
    [destruct b, b0; well_formed_case|].
  run_evaluator; [|well_formed_case].
  destruct b1; well_formed_case.
Qed.


(** C6. Whatever the evaluators do, the auditor returns a result and raises
    nothing; and when the body of its [try] raises an exception [e], the
    result has status [error], [ok = False] and the reason
    ["Exception: " + repr(e)]. *)
Theorem audit_contains_exceptions
  (evaluators : evaluator -> Path -> Z -> M (bool * str))
  (h : Host) (path : Path) (mode : str) (timeout : Z)
  (image_exts video_exts : list str) (s : State) :
  exists fr s',
    audit_with evaluators h path mode timeout image_exts video_exts s
    = (Return fr, s')
    /\ forall e s1,
        audit_body evaluators h (time_time h (ticks s)) path mode timeout
          image_exts video_exts (tick s) = (Raise e, s1) ->
        FileResult.status fr = Status.error
        /\ FileResult.ok fr = false
        /\ FileResult.reason fr = lit "Exception: " ++ exn_repr e
        /\ contains (exn_repr e) (FileResult.reason fr) = true
        /\ FileResult.path fr = path
        /\ FileResult.mode fr = mode.
Proof.
  unfold audit_with, try_except, bind, now. fold (tick s).
  destruct (audit_body evaluators h (time_time h (ticks s)) path mode timeout
              image_exts video_exts (tick s)) as [[fr|x] s1].
  - exists fr, s1. split; [reflexivity|]. intros e s2 H. discriminate.
  - eexists; eexists. split; [reflexivity|]. intros e s2 H.
    injection H as -> ->. cbn.
    repeat split. apply (contains_skip _ (lit "Exception: ")).
    rewrite <- (app_nil_r (exn_repr e)) at 2. apply contains_here.
Qed.

(** An exception raised by any of the evaluators is one raised by the body:
    here by the first one. *)
Lemma audit_body_raises_probe
  (evaluators : evaluator -> Path -> Z -> M (bool * str))
  (h : Host) (t0 : Q) (path : Path) (mode : str) (timeout : Z)
  (image_exts video_exts : list str) (s s1 : State) (e : exn) :
  supported h path image_exts video_exts = true ->
  evaluators ContainerProbe path timeout (extend s [Invoke ContainerProbe])
  = (Raise e, s1) ->
  audit_body evaluators h t0 path mode timeout image_exts video_exts s
  = (Raise e, s1).
Proof.
  unfold supported, audit_body, invoke, log, bind, extend. intros -> H.
  cbn [negb]. now rewrite H.
Qed.

Lemma audit_body_raises_first_frame
  (evaluators : evaluator -> Path -> Z -> M (bool * str))
  (h : Host) (t0 : Q) (path : Path) (mode : str) (timeout : Z)
  (image_exts video_exts : list str) (s s1 s2 : State) (v : bool * str)
  (e : exn) :
  supported h path image_exts video_exts = true ->
  str_eqb mode (lit "fast") = false ->
  evaluators ContainerProbe path timeout (extend s [Invoke ContainerProbe])
  = (Return v, s1) ->
  evaluators FirstFrameDecode path timeout (extend s1 [Invoke FirstFrameDecode])
  = (Raise e, s2) ->
  audit_body evaluators h t0 path mode timeout image_exts video_exts s
  = (Raise e, s2).
Proof.
  unfold supported, audit_body, invoke, log, bind, extend.
  intros -> -> H1 H2. cbn [negb]. rewrite H1. destruct v. now rewrite H2.
Qed.

Lemma audit_body_raises_full
  (evaluators : evaluator -> Path -> Z -> M (bool * str))
  (h : Host) (t0 : Q) (path : Path) (mode : str) (timeout : Z)
  (image_exts video_exts : list str) (s s1 s2 s3 : State) (v v' : bool * str)
  (e : exn) :
  supported h path image_exts video_exts = true ->
  str_eqb mode (lit "fast") = false ->
  str_eqb mode (lit "medium") = false ->
  evaluators ContainerProbe path timeout (extend s [Invoke ContainerProbe])
  = (Return v, s1) ->
  evaluators FirstFrameDecode path timeout (extend s1 [Invoke FirstFrameDecode])
  = (Return v', s2) ->
  evaluators FullTrackDecode path timeout (extend s2 [Invoke FullTrackDecode])
  = (Raise e, s3) ->
  audit_body evaluators h t0 path mode timeout image_exts video_exts s
  = (Raise e, s3).
Proof.
  unfold supported, audit_body, invoke, log, bind, extend.
  intros -> -> -> H1 H2 H3. cbn [negb]. rewrite H1. destruct v.
  rewrite H2. destruct v'. now rewrite H3.
Qed.

(** The result of [audit_one], mode by mode, from the pairs the evaluators
    return and two readings of the clock. *)
Lemma audit_one_returns (h : Host) (path : Path) (mode : str) (timeout : Z)
  (image_exts video_exts : list str) (s : State) :
  let ms := elapsed_ms (time_time h (ticks s)) (time_time h (S (ticks s))) in
  let fast := verdict_of h ContainerProbe path timeout in
  let first := verdict_of h FirstFrameDecode path timeout in
  let full := verdict_of h FullTrackDecode path timeout in
  audit_one h path mode timeout image_exts video_exts s
  = (Return
       (if supported h path image_exts video_exts then
          if str_eqb mode (lit "fast") then
            FileResult.make path (fst fast)
              (if fst fast then Status.ok else Status.damaged)
              (FAST_BASIS ++ lit " | diag: " ++ snd fast) mode ms
          else if str_eqb mode (lit "medium") then
            FileResult.make path (fst fast && fst first)
              (if fst fast && fst first then Status.ok else Status.damaged)
              (MEDIUM_BASIS ++ lit " | fast: " ++ snd fast
               ++ lit " | first-frame: " ++ snd first) mode ms
          else
            FileResult.make path (fst full)
              (if fst full then Status.ok else Status.damaged)
              (SLOW_BASIS ++ lit " | fast: " ++ snd fast
               ++ lit " | first-frame: " ++ snd first
               ++ lit " | full: " ++ snd full) mode ms
        else
          FileResult.make path true Status.skipped
            (lit "unsupported extension") mode ms),
     extend (tick (tick s))
       (audit_events h path mode timeout image_exts video_exts)).
Proof.
  intros ms fast first full. subst ms fast first full.
  unfold audit_one, audit_with, audit_events, audit_body, announced, invoke,
    log, try_except, bind, now, ret, supported.
  destruct (is_image h path image_exts || is_video h path video_exts);
    cbn [negb ticks trace].
  2: { unfold extend, tick. cbn [ticks trace]. now rewrite app_nil_r. }
  rewrite evaluator_returns.
  destruct (verdict_of h ContainerProbe path timeout) as [ok_fast why_fast].
  destruct (str_eqb mode (lit "fast")).
  { unfold extend, tick. cbn [ticks trace fst snd].
    now rewrite <- !app_assoc, app_nil_r. }
  rewrite evaluator_returns.
  destruct (verdict_of h FirstFrameDecode path timeout) as [ok_first why_first].
  destruct (str_eqb mode (lit "medium")).
  { unfold extend, tick. cbn [ticks trace fst snd].
    now rewrite <- !app_assoc, app_nil_r. }
  rewrite evaluator_returns.
  destruct (verdict_of h FullTrackDecode path timeout) as [ok_full why_full].
  unfold extend, tick. cbn [ticks trace fst snd].
  now rewrite <- !app_assoc.
Qed.

Lemma supported_events (h : Host) (path : Path) (mode : str) (timeout : Z)
  (image_exts video_exts : list str) :
  supported h path image_exts video_exts = true ->
  audit_events h path mode timeout image_exts video_exts
  = announced h ContainerProbe path timeout
    ++ (if str_eqb mode (lit "fast") then []
        else announced h FirstFrameDecode path timeout
             ++ (if str_eqb mode (lit "medium") then []
                 else announced h FullTrackDecode path timeout)).
Proof. unfold audit_events. now intros ->. Qed.

(** C1. At the slow tier, for a file with a supported extension, the auditor
    calls the three evaluators in turn (probe, first frame, full decode), and
    the [ok] of its result is the boolean the full decode returned, with
    status [ok] or [damaged] accordingly; and there is a host on which the
    probe and the first-frame decode both fail while the slow result has
    [ok = True]. *)
Theorem slow_verdict_is_full_decode :
  (forall (h : Host) (path : Path) (timeout : Z)
          (image_exts video_exts : list str) (s : State),
      supported h path image_exts video_exts = true ->
      exists fr s' why_full,
        audit_one h path (lit "slow") timeout image_exts video_exts s
        = (Return fr, s')
        /\ trace s'
           = trace s
             ++ Invoke ContainerProbe :: spawns h ContainerProbe path timeout
             ++ Invoke FirstFrameDecode
                :: spawns h FirstFrameDecode path timeout
             ++ Invoke FullTrackDecode
                :: spawns h FullTrackDecode path timeout
        /\ (forall s0, fst (check_full_decode h path timeout s0)
                       = Return (FileResult.ok fr, why_full))
        /\ FileResult.status fr
           = if FileResult.ok fr then Status.ok else Status.damaged)
  /\ (exists (h : Host) (path : Path) (timeout : Z)
             (image_exts video_exts : list str) fr s' why_fast why_first,
         supported h path image_exts video_exts = true
         /\ audit_one h path (lit "slow") timeout image_exts video_exts start
            = (Return fr, s')
         /\ (forall s0, fst (check_fast h path timeout s0)
                        = Return (false, why_fast))
         /\ (forall s0, fst (check_decode_first_frame h path timeout s0)
                        = Return (false, why_first))
         /\ FileResult.ok fr = true
         /\ FileResult.status fr = Status.ok).
Proof.
  split.
  - intros h path timeout image_exts video_exts s Hs.
    pose proof (audit_one_returns h path (lit "slow") timeout
                  image_exts video_exts s) as E.
    cbv zeta in E. rewrite Hs in E.
    rewrite (supported_events _ _ _ _ _ _ Hs) in E.
    change (str_eqb (lit "slow") (lit "fast")) with false in E.
    change (str_eqb (lit "slow") (lit "medium")) with false in E.
    cbv iota in E.
    eexists; eexists; exists (snd (verdict_of h FullTrackDecode path timeout)).
    split; [exact E|]. cbn [FileResult.ok FileResult.status].
    split; [|split].
    + unfold extend, tick, announced. cbn [trace]. reflexivity.
    + intros s0. rewrite check_full_decode_value.
      now destruct (verdict_of h FullTrackDecode path timeout).
    + reflexivity.
  - exists Fixture.authoritative, Fixture.clip, 120, Fixture.exts, Fixture.exts.
    pose proof (audit_one_returns Fixture.authoritative Fixture.clip
                  (lit "slow") 120 Fixture.exts Fixture.exts start) as E.
    cbv zeta in E.
    eexists; eexists;
      exists (snd (verdict_of Fixture.authoritative ContainerProbe
                     Fixture.clip 120)),
             (snd (verdict_of Fixture.authoritative FirstFrameDecode
                     Fixture.clip 120)).
    split; [reflexivity|]. split; [exact E|].
    split; [|split; [|split]].
    + intros s0. rewrite check_fast_value. vm_compute. reflexivity.
    + intros s0. rewrite check_decode_first_frame_value.
      vm_compute. reflexivity.
    + vm_compute. reflexivity.
    + vm_compute. reflexivity.
Qed.

(** C3. At the medium tier, for a file with a supported extension, the
    auditor calls the probe and then the first-frame decode, whatever the
    probe returned (and the decode starts its process whenever the decoder is
    installed); the [ok] of the result is the conjunction of the two booleans
    returned, so [ok = True] means both checks succeeded. *)
Theorem medium_verdict_is_conjunction (h : Host) (path : Path) (timeout : Z)
  (image_exts video_exts : list str) (s : State) :
  supported h path image_exts video_exts = true ->
  exists fr s' ok_fast why_fast ok_first why_first,
    audit_one h path (lit "medium") timeout image_exts video_exts s
    = (Return fr, s')
    /\ (forall s0, fst (check_fast h path timeout s0)
                   = Return (ok_fast, why_fast))
    /\ (forall s0, fst (check_decode_first_frame h path timeout s0)
                   = Return (ok_first, why_first))
    /\ trace s'
       = trace s
         ++ Invoke ContainerProbe :: spawns h ContainerProbe path timeout
         ++ Invoke FirstFrameDecode
            :: (if HAS_FFMPEG h
                then [Spawn (first_frame_cmd path) timeout] else [])
    /\ FileResult.ok fr = ok_fast && ok_first
    /\ (FileResult.ok fr = true -> ok_fast = true /\ ok_first = true)
    /\ FileResult.status fr
       = (if FileResult.ok fr then Status.ok else Status.damaged)
    /\ contains why_fast (FileResult.reason fr) = true
    /\ contains why_first (FileResult.reason fr) = true.
Proof.
  intros Hs.
  pose proof (audit_one_returns h path (lit "medium") timeout
                image_exts video_exts s) as E.
  cbv zeta in E. rewrite Hs in E.
  rewrite (supported_events _ _ _ _ _ _ Hs) in E.
  change (str_eqb (lit "medium") (lit "fast")) with false in E.
  change (str_eqb (lit "medium") (lit "medium")) with true in E.
  cbv iota in E.
  destruct (verdict_of h ContainerProbe path timeout)
    as [ok_fast why_fast] eqn:Efast.
  destruct (verdict_of h FirstFrameDecode path timeout)
    as [ok_first why_first] eqn:Efirst.
  eexists; eexists; exists ok_fast, why_fast, ok_first, why_first.
  split; [exact E|].
  cbn [FileResult.ok FileResult.status FileResult.reason fst snd].
  repeat split.
  - intros s0. now rewrite check_fast_value, Efast.
  - intros s0. now rewrite check_decode_first_frame_value, Efirst.
  - unfold extend, tick, announced. cbn [trace spawns].
    now rewrite app_nil_r.
  - now destruct ok_fast.
  - destruct ok_fast, ok_first; auto.
  - apply (contains_skip _ MEDIUM_BASIS), (contains_skip _ (lit " | fast: ")).
    apply contains_here.
  - apply (contains_skip _ MEDIUM_BASIS), (contains_skip _ (lit " | fast: ")).
    apply contains_skip, (contains_skip _ (lit " | first-frame: ")).
    rewrite <- (app_nil_r why_first) at 2. apply contains_here.
Qed.

(** C2, as the code has it. At the fast tier, for a file with a supported
    extension, [ok] is true exactly when an installed tool succeeded cleanly:
    the probe with exit status zero and an error stream that is empty once
    stripped of white space, or the metadata tool with exit status zero, an
    error stream that is empty once stripped, and no [Error] in its output.
    With neither tool installed, [ok] is false. *)
Theorem fast_verdict_iff_clean_tool (h : Host) (path : Path) (timeout : Z)
  (image_exts video_exts : list str) (s : State)
  (rc rc2 : Z) (out err out2 err2 : str) :
  supported h path image_exts video_exts = true ->
  outcome h (ffprobe_cmd path) timeout = (rc, out, err) ->
  outcome h (exiftool_cmd path) timeout = (rc2, out2, err2) ->
  exists fr s',
    audit_one h path (lit "fast") timeout image_exts video_exts s
    = (Return fr, s')
    /\ (FileResult.ok fr = true
        <-> (HAS_FFPROBE h = true /\ rc = 0 /\ strip err = [])
            \/ (HAS_EXIFTOOL h = true /\ rc2 = 0 /\ strip err2 = []
                /\ contains (lit "Error") out2 = false))
    /\ (HAS_FFPROBE h = false -> HAS_EXIFTOOL h = false ->
        FileResult.ok fr = false)
    /\ FileResult.status fr
       = (if FileResult.ok fr then Status.ok else Status.damaged).
Proof.
  intros Hs Ho Ho2.
  pose proof (audit_one_returns h path (lit "fast") timeout
                image_exts video_exts s) as E.
  cbv zeta in E. rewrite Hs in E.
  change (str_eqb (lit "fast") (lit "fast")) with true in E.
  cbv iota in E.
  eexists; eexists. split; [exact E|].
  cbn [FileResult.ok FileResult.status].
  rewrite verdict_of_probe, Ho, Ho2. cbn [fst clean_exit clean_metadata].
  assert (Hempty : forall x : str, is_empty x = true <-> x = [])
    by (intros [|]; simpl; split; congruence).
  split; [|split; [now intros -> ->|reflexivity]].
  destruct (HAS_FFPROBE h), (HAS_EXIFTOOL h); cbn [app any_flag existsb];
    rewrite ?orb_false_r, ?orb_true_iff, ?andb_true_iff, ?negb_true_iff,
      ?Z.eqb_eq, ?Hempty;
    intuition discriminate.
Qed.

(** C2 as stated fails on a probe that exits with status zero and writes a
    lone line feed to its error stream, with no metadata tool installed: the
    error stream is not empty, no tool succeeded with an empty error stream,
    and yet the fast result has [ok = True]. *)
Lemma fast_passes_on_blank_stderr :
  exists fr s' rc out err rc2 out2 err2,
    supported Fixture.blank_stderr Fixture.clip Fixture.exts Fixture.exts = true
    /\ audit_one Fixture.blank_stderr Fixture.clip (lit "fast") 120
         Fixture.exts Fixture.exts start = (Return fr, s')
    /\ outcome Fixture.blank_stderr (ffprobe_cmd Fixture.clip) 120
       = (rc, out, err)
    /\ outcome Fixture.blank_stderr (exiftool_cmd Fixture.clip) 120
       = (rc2, out2, err2)
    /\ FileResult.ok fr = true
    /\ err = [10%N]
    /\ ~ ((HAS_FFPROBE Fixture.blank_stderr = true /\ rc = 0 /\ err = [])
          \/ (HAS_EXIFTOOL Fixture.blank_stderr = true /\ rc2 = 0 /\ err2 = []
              /\ contains (lit "Error") out2 = false)).
Proof.
  do 8 eexists.
  split; [reflexivity|].
  split; [vm_compute; reflexivity|].
  split; [vm_compute; reflexivity|].
  split; [vm_compute; reflexivity|].
  split; [reflexivity|].
  split; [reflexivity|].
  intros [(_ & _ & H)|(H & _)]; discriminate.
Qed.

Lemma timed_out_not_clean (h : Host) (cmd : list str) (timeout : Z) :
  timed_out h cmd timeout ->
  clean_exit (outcome h cmd timeout) = false
  /\ clean_metadata (outcome h cmd timeout) = false.
Proof.
  intros H. destruct (outcome_timed_out h cmd timeout H) as (e & _ & ->).
  split; reflexivity.
Qed.

Lemma probe_all_timed_out (h : Host) (path : Path) (timeout : Z) :
  (HAS_FFPROBE h = true -> timed_out h (ffprobe_cmd path) timeout) ->
  (HAS_EXIFTOOL h = true -> timed_out h (exiftool_cmd path) timeout) ->
  fst (verdict_of h ContainerProbe path timeout) = false.
Proof.
  intros Hp Hm. rewrite verdict_of_probe. cbn [fst].
  destruct (HAS_FFPROBE h), (HAS_EXIFTOOL h); cbn [app any_flag existsb];
    try reflexivity;
    try (destruct (timed_out_not_clean _ _ _ (Hp eq_refl)) as [-> _]);
    try (destruct (timed_out_not_clean _ _ _ (Hm eq_refl)) as [_ ->]);
    reflexivity.
Qed.

Lemma decode_timed_out (h : Host) (e : evaluator) (cmd : list str)
  (path : Path) (timeout : Z) :
  (e = FirstFrameDecode /\ cmd = first_frame_cmd path
   \/ e = FullTrackDecode /\ cmd = full_decode_cmd path) ->
  (HAS_FFMPEG h = true -> timed_out h cmd timeout) ->
  fst (verdict_of h e path timeout) = false.
Proof.
  intros [[-> ->]|[-> ->]] H;
    rewrite ?verdict_of_first_frame, ?verdict_of_full_decode;
    destruct (HAS_FFMPEG h); try reflexivity;
    destruct (timed_out_not_clean _ _ _ (H eq_refl)) as [E _];
    cbn [fst]; exact E.
Qed.

Ltac audit_at m :=
  match goal with
  | Hs : supported ?h ?p ?ie ?ve = true |- context [audit_one ?h ?p _ ?t ?ie ?ve ?s] =>
      let E := fresh "E" in
      pose proof (audit_one_returns h p m t ie ve s) as E;
      cbv zeta in E; rewrite Hs in E
  end.

(** C7, as the code has it. [run] returns a triple in every case and raises
    nothing; when the process runs out of time the triple is exit status 124,
    no output and the text ["Timeout: " + str(e)], and when it cannot be run
    for another reason the triple is exit status 125, no output and
    ["Exception: " + repr(e)]. A check whose process ran out of time does not
    count as clean, and the result of the auditor is [damaged] with
    [ok = False] when the timed-out checks are those the tier rests on: at
    the fast tier every installed probe and metadata tool, at the medium tier
    the first-frame decode or every installed probe and metadata tool, at the
    slow tier the full decode. *)
Theorem timeouts_are_contained (h : Host) :
  (forall cmd timeout s,
      exists v, run h cmd timeout s
                = (Return v, extend s [Spawn cmd timeout]))
  /\ (forall cmd timeout s,
         timed_out h cmd timeout ->
         exists e,
           subprocess_run h cmd timeout = Raised e
           /\ run h cmd timeout s
              = (Return (124, [], lit "Timeout: " ++ exn_str e),
                 extend s [Spawn cmd timeout]))
  /\ (forall cmd timeout s,
         launch_failed h cmd timeout ->
         exists e,
           subprocess_run h cmd timeout = Raised e
           /\ run h cmd timeout s
              = (Return (125, [], lit "Exception: " ++ exn_repr e),
                 extend s [Spawn cmd timeout]))
  /\ (forall path timeout image_exts video_exts s,
         supported h path image_exts video_exts = true ->
         ((HAS_FFPROBE h = true -> timed_out h (ffprobe_cmd path) timeout) ->
          (HAS_EXIFTOOL h = true -> timed_out h (exiftool_cmd path) timeout) ->
          forall mode, mode = lit "fast" \/ mode = lit "medium" ->
          exists fr s',
            audit_one h path mode timeout image_exts video_exts s
            = (Return fr, s')
            /\ FileResult.ok fr = false
            /\ FileResult.status fr = Status.damaged)
         /\ ((HAS_FFMPEG h = true ->
              timed_out h (first_frame_cmd path) timeout) ->
             exists fr s',
               audit_one h path (lit "medium") timeout image_exts video_exts s
               = (Return fr, s')
               /\ FileResult.ok fr = false
               /\ FileResult.status fr = Status.damaged)
         /\ ((HAS_FFMPEG h = true ->
              timed_out h (full_decode_cmd path) timeout) ->
             exists fr s',
               audit_one h path (lit "slow") timeout image_exts video_exts s
               = (Return fr, s')
               /\ FileResult.ok fr = false
               /\ FileResult.status fr = Status.damaged)).
Proof.
  split; [|split; [|split]].
  - intros cmd timeout s. eexists. apply run_returns.
  - intros cmd timeout s H.
    destruct (outcome_timed_out h cmd timeout H) as (e & He & Ho).
    exists e. split; [exact He|]. now rewrite run_returns, Ho.
  - intros cmd timeout s H.
    destruct (outcome_launch_failed h cmd timeout H) as (e & He & Ho).
    exists e. split; [exact He|]. now rewrite run_returns, Ho.
  - intros path timeout image_exts video_exts s Hs. split; [|split].
    + intros Hp Hm mode [->| ->].
      * audit_at (lit "fast").
        change (str_eqb (lit "fast") (lit "fast")) with true in E.
        cbv iota in E. eexists; eexists. split; [exact E|].
        cbn [FileResult.ok FileResult.status].
        now rewrite (probe_all_timed_out h path timeout Hp Hm).
      * audit_at (lit "medium").
        change (str_eqb (lit "medium") (lit "fast")) with false in E.
        change (str_eqb (lit "medium") (lit "medium")) with true in E.
        cbv iota in E. eexists; eexists. split; [exact E|].
        cbn [FileResult.ok FileResult.status].
        now rewrite (probe_all_timed_out h path timeout Hp Hm).
    + intros H. audit_at (lit "medium").
      change (str_eqb (lit "medium") (lit "fast")) with false in E.
      change (str_eqb (lit "medium") (lit "medium")) with true in E.
      cbv iota in E. eexists; eexists. split; [exact E|].
      cbn [FileResult.ok FileResult.status].
      rewrite (decode_timed_out h FirstFrameDecode _ path timeout
                 (or_introl (conj eq_refl eq_refl)) H).
      now rewrite andb_false_r.
    + intros H. audit_at (lit "slow").
      change (str_eqb (lit "slow") (lit "fast")) with false in E.
      change (str_eqb (lit "slow") (lit "medium")) with false in E.
      cbv iota in E. eexists; eexists. split; [exact E|].
      cbn [FileResult.ok FileResult.status].
      now rewrite (decode_timed_out h FullTrackDecode _ path timeout
                     (or_intror (conj eq_refl eq_refl)) H).
Qed.

(** C7 as stated fails when the probe runs out of time and the metadata tool
    succeeds: the fast result comes from a timeout outcome and has status
    [ok]. *)
Lemma fast_passes_after_timeout :
  exists fr s' e,
    supported Fixture.probe_hangs Fixture.clip Fixture.exts Fixture.exts = true
    /\ subprocess_run Fixture.probe_hangs (ffprobe_cmd Fixture.clip) 120
       = Raised e
    /\ exn_class_of e = TimeoutExpired
    /\ run Fixture.probe_hangs (ffprobe_cmd Fixture.clip) 120 start
       = (Return (124, [], lit "Timeout: " ++ exn_str e),
          extend start [Spawn (ffprobe_cmd Fixture.clip) 120])
    /\ audit_one Fixture.probe_hangs Fixture.clip (lit "fast") 120
         Fixture.exts Fixture.exts start = (Return fr, s')
    /\ In (Spawn (ffprobe_cmd Fixture.clip) 120) (trace s')
    /\ FileResult.status fr = Status.ok
    /\ FileResult.ok fr = true.
Proof.
  do 3 eexists.
  split; [reflexivity|].
  split; [reflexivity|].
  split; [reflexivity|].
  split; [vm_compute; reflexivity|].
  split; [vm_compute; reflexivity|].
  split; [right; left; reflexivity|].
  split; reflexivity.
Qed.

Lemma contains_self (x : str) : contains x x = true.
Proof. rewrite <- (app_nil_r x) at 2. apply contains_here. Qed.

(** C9, as the code has it. The diagnostic of the probe holds, for the probe
    tool when installed, its exit status and the length of its error text
    once stripped of white space, and for the metadata tool when installed,
    its exit status and whether its output holds [Error]; the diagnostics of
    the first-frame decode and of the full decode, with the decoder
    installed, are the exit status and the length of the stripped error
    text. *)
Theorem diagnostics_report_exit_status (h : Host) (path : Path) (timeout : Z) :
  (exists ok diag,
      (forall s, fst (check_fast h path timeout s) = Return (ok, diag))
      /\ (HAS_FFPROBE h = true ->
          forall rc out err,
            outcome h (ffprobe_cmd path) timeout = (rc, out, err) ->
            contains (lit "ffprobe rc=" ++ str_of_int rc ++ lit " err_len="
                      ++ str_of_int (len (strip err))) diag = true)
      /\ (HAS_EXIFTOOL h = true ->
          forall rc out err,
            outcome h (exiftool_cmd path) timeout = (rc, out, err) ->
            contains (lit "exiftool rc=" ++ str_of_int rc
                      ++ lit " has_error_token="
                      ++ str_of_bool (contains (lit "Error") out)) diag = true))
  /\ (HAS_FFMPEG h = true ->
      forall rc out err,
        outcome h (first_frame_cmd path) timeout = (rc, out, err) ->
        forall s,
          fst (check_decode_first_frame h path timeout s)
          = Return ((rc =? 0) && is_empty (strip err),
                    lit "ffmpeg[first-frame] rc=" ++ str_of_int rc
                    ++ lit " err_len=" ++ str_of_int (len (strip err))))
  /\ (HAS_FFMPEG h = true ->
      forall rc out err,
        outcome h (full_decode_cmd path) timeout = (rc, out, err) ->
        forall s,
          fst (check_full_decode h path timeout s)
          = Return ((rc =? 0) && is_empty (strip err),
                    lit "ffmpeg[full-decode] rc=" ++ str_of_int rc
                    ++ lit " err_len=" ++ str_of_int (len (strip err)))).
Proof.
  split; [|split].
  - exists (fst (verdict_of h ContainerProbe path timeout)),
           (snd (verdict_of h ContainerProbe path timeout)).
    split; [|split].
    + intros s. rewrite check_fast_value.
      now destruct (verdict_of h ContainerProbe path timeout).
    + intros Hp rc out err Ho. rewrite verdict_of_probe, Hp, Ho.
      cbn [snd join exit_diag]. apply contains_here.
    + intros Hm rc out err Ho. rewrite verdict_of_probe, Hm, Ho.
      cbn [snd join metadata_diag].
      apply contains_skip, (contains_skip _ (lit "; ")), contains_self.
  - intros Hf rc out err Ho s.
    now rewrite check_decode_first_frame_value, verdict_of_first_frame, Hf, Ho.
  - intros Hf rc out err Ho s.
    now rewrite check_full_decode_value, verdict_of_full_decode, Hf, Ho.
Qed.

(** C9 as stated fails in two ways. With only the metadata tool installed,
    the diagnostic of the probe holds no length of the error text: the tool
    wrote seven characters and the diagnostic has no 7 in it. And the length
    the decodes report is the one of the stripped text: for an error text of
    four characters of which one is not white space, the diagnostic has no 4
    in it. *)
Lemma diagnostic_omits_captured_length :
  (exists diag err,
      HAS_EXIFTOOL Fixture.chatty = true
      /\ (forall s, fst (check_fast Fixture.chatty Fixture.clip 120 s)
                    = Return (false, diag))
      /\ outcome Fixture.chatty (exiftool_cmd Fixture.clip) 120 = (0, [], err)
      /\ len err = 7
      /\ diag = lit "ffprobe unavailable; exiftool rc=0 has_error_token=False"
      /\ contains (str_of_int (len err)) diag = false)
  /\ (exists diag err,
         HAS_FFMPEG Fixture.chatty = true
         /\ (forall s,
                fst (check_decode_first_frame Fixture.chatty Fixture.clip 120 s)
                = Return (false, diag))
         /\ outcome Fixture.chatty (first_frame_cmd Fixture.clip) 120
            = (1, [], err)
         /\ len err = 4
         /\ diag = lit "ffmpeg[first-frame] rc=1 err_len=1"
         /\ contains (str_of_int (len err)) diag = false).
Proof.
  split.
  - exists (lit "ffprobe unavailable; exiftool rc=0 has_error_token=False"),
           (lit "warning").
    split; [reflexivity|]. split.
    { intros s. rewrite check_fast_value. vm_compute. reflexivity. }
    split; [vm_compute; reflexivity|].
    repeat split; reflexivity.
  - exists (lit "ffmpeg[first-frame] rc=1 err_len=1"), (lit "  x ").
    split; [reflexivity|]. split.
    { intros s. rewrite check_decode_first_frame_value.
      vm_compute. reflexivity. }
    split; [vm_compute; reflexivity|].
    repeat split; reflexivity.
Qed.

(** ** Determinism *)

Section SameHost.

Variables h1 h2 : Host.
Hypothesis tools : same_tools h1 h2.
Hypothesis processes : same_processes h1 h2.
Hypothesis text : same_text h1 h2.

Lemma same_bytes_decode (enc : str) (e : errors) (buf : bytes) :
  bytes_decode h1 enc e buf = bytes_decode h2 enc e buf.
Proof.
  unfold bytes_decode. destruct text as (_ & Hc & _). now rewrite Hc.
Qed.

Lemma same_decode (buf : bytes) : _decode h1 buf = _decode h2 buf.
Proof.
  unfold _decode, encodings. destruct text as (-> & _ & _).
  generalize [lit "utf-8"; or_else (getpreferredencoding h2) (lit "utf-8");
              lit "gbk"; lit "cp936"; lit "latin-1"].
  intros encs. induction encs as [|enc rest IH]; simpl.
  - apply same_bytes_decode.
  - now rewrite same_bytes_decode, IH.
Qed.

Lemma same_outcome (cmd : list str) (timeout : Z) :
  outcome h1 cmd timeout = outcome h2 cmd timeout.
Proof.
  destruct (subprocess_run h2 cmd timeout) as [rc o e|e] eqn:H2;
    pose proof (processes cmd timeout) as H1; rewrite H2 in H1.
  - destruct (outcome_completed h1 cmd timeout rc o e H1)
      as (out & err & Ho & He & ->).
    destruct (outcome_completed h2 cmd timeout rc o e H2)
      as (out' & err' & Ho' & He' & ->).
    rewrite same_decode in Ho, He. congruence.
  - now rewrite (outcome_raised h1 cmd timeout e H1),
      (outcome_raised h2 cmd timeout e H2).
Qed.

Lemma same_verdict (e : evaluator) (path : Path) (timeout : Z) :
  verdict_of h1 e path timeout = verdict_of h2 e path timeout.
Proof.
  destruct tools as (Hp & Hf & Hm).
  destruct e;
    rewrite ?verdict_of_probe, ?verdict_of_first_frame,
      ?verdict_of_full_decode, ?Hp, ?Hf, ?Hm, !same_outcome; reflexivity.
Qed.

Lemma same_supported (path : Path) (image_exts video_exts : list str) :
  supported h1 path image_exts video_exts
  = supported h2 path image_exts video_exts.
Proof.
  unfold supported, is_image, is_video. destruct text as (_ & _ & Hl).
  now rewrite Hl.
Qed.

End SameHost.

Lemma verdict_of_outcomes (h1 h2 : Host) (e : evaluator) (path : Path)
  (timeout : Z) :
  same_tools h1 h2 -> same_outcomes h1 h2 timeout ->
  verdict_of h1 e path timeout = verdict_of h2 e path timeout.
Proof.
  intros (Hp & Hf & Hm) Ho.
  destruct e;
    rewrite ?verdict_of_probe, ?verdict_of_first_frame,
      ?verdict_of_full_decode, ?Hp, ?Hf, ?Hm, !Ho; reflexivity.
Qed.

(** Equal process results become equal triples when the hosts decode
    alike. *)
Lemma same_processes_same_outcomes (h1 h2 : Host) (timeout : Z) :
  same_processes h1 h2 -> same_text h1 h2 -> same_outcomes h1 h2 timeout.
Proof. intros Hp Hx cmd. now apply same_outcome. Qed.

(** C10, as the code has it. Two audits of the same file in the same mode, on
    hosts with the same tools, on which the file is classified alike and
    [run] returns the same triples (exit status and decoded texts) for the
    commands run with this timeout, started in any two states and with any
    two clocks, both return a result, and the two results have the same
    [ok], the same [status] and the same reason; only the duration may
    differ. Hosts on which the processes end alike return the same triples
    when they also have the same preferred encoding and codecs. *)
Theorem audit_is_deterministic (h1 h2 : Host) (path : Path) (mode : str)
  (timeout : Z) (image_exts video_exts : list str) (s1 s2 : State) :
  same_tools h1 h2 ->
  supported h1 path image_exts video_exts
  = supported h2 path image_exts video_exts ->
  same_outcomes h1 h2 timeout ->
  exists fr1 fr2 s1' s2',
    audit_one h1 path mode timeout image_exts video_exts s1 = (Return fr1, s1')
    /\ audit_one h2 path mode timeout image_exts video_exts s2
       = (Return fr2, s2')
    /\ FileResult.ok fr1 = FileResult.ok fr2
    /\ FileResult.status fr1 = FileResult.status fr2
    /\ FileResult.reason fr1 = FileResult.reason fr2
    /\ FileResult.mode fr1 = FileResult.mode fr2
    /\ FileResult.path fr1 = FileResult.path fr2.
Proof.
  intros Ht Hs Ho.
  pose proof (audit_one_returns h1 path mode timeout image_exts video_exts s1)
    as E1.
  pose proof (audit_one_returns h2 path mode timeout image_exts video_exts s2)
    as E2.
  cbv zeta in E1, E2.
  rewrite Hs, !(verdict_of_outcomes h1 h2 _ path timeout Ht Ho) in E1.
  do 4 eexists. split; [exact E1|]. split; [exact E2|].
  destruct (supported h2 path image_exts video_exts);
    [destruct (str_eqb mode (lit "fast"));
     [|destruct (str_eqb mode (lit "medium"))]|];
    repeat split; reflexivity.
Qed.

(** C10 as stated fails when the hosts differ in their preferred encoding
    only. The probe exits with status zero and writes the byte 85
    (hexadecimal) to its error stream. Where the preferred encoding is
    cp1252 the byte is an ellipsis, the error text is not blank and the file
    is damaged; where it is UTF-8 the byte is decoded by Latin-1 to U+0085,
    which [strip] removes, and the file is ok. Tools, process results, codecs
    and case mapping are the same on both hosts. *)
Lemma locale_changes_the_verdict :
  exists fr1 fr2 s1' s2',
    same_tools (Sample.localised (lit "cp1252")) (Sample.localised (lit "UTF-8"))
    /\ same_processes (Sample.localised (lit "cp1252"))
         (Sample.localised (lit "UTF-8"))
    /\ (forall enc,
           codec (Sample.localised (lit "cp1252")) enc
           = codec (Sample.localised (lit "UTF-8")) enc)
    /\ (forall s,
           str_lower (Sample.localised (lit "cp1252")) s
           = str_lower (Sample.localised (lit "UTF-8")) s)
    /\ audit_one (Sample.localised (lit "cp1252")) Fixture.clip (lit "fast")
         120 Fixture.exts Fixture.exts start = (Return fr1, s1')
    /\ audit_one (Sample.localised (lit "UTF-8")) Fixture.clip (lit "fast")
         120 Fixture.exts Fixture.exts start = (Return fr2, s2')
    /\ outcome (Sample.localised (lit "cp1252")) (ffprobe_cmd Fixture.clip) 120
       = (0, [], [8230%N])
    /\ outcome (Sample.localised (lit "UTF-8")) (ffprobe_cmd Fixture.clip) 120
       = (0, [], [133%N])
    /\ FileResult.ok fr1 = false
    /\ FileResult.status fr1 = Status.damaged
    /\ FileResult.ok fr2 = true
    /\ FileResult.status fr2 = Status.ok.
Proof.
  do 4 eexists.
  split; [repeat split|].
  split; [intros cmd timeout; reflexivity|].
  split; [intros enc; reflexivity|].
  split; [intros s; reflexivity|].
  split; [vm_compute; reflexivity|].
  split; [vm_compute; reflexivity|].
  split; [vm_compute; reflexivity|].
  split; [vm_compute; reflexivity|].
  repeat split.
Qed.

(** ** Scheduler and aggregator *)

Lemma audit_one_well_formed (h : Host) (path : Path) (mode : str) (timeout : Z)
  (image_exts video_exts : list str) (s : State) :
  exists fr s',
    audit_one h path mode timeout image_exts video_exts s = (Return fr, s')
    /\ well_formed (supported h path image_exts video_exts) path mode fr.
Proof. apply audit_with_returns. Qed.

Lemma count_checked (t : Tally.t) (res : FileResult.t) :
  Tally.checked (count t res) = Tally.checked t + 1.
Proof.
  unfold count.
  destruct (Status.eqb (FileResult.status res) Status.ok
            || FileResult.ok res
               && Status.eqb (FileResult.status res) Status.skipped);
    [reflexivity|].
  destruct (Status.eqb (FileResult.status res) Status.damaged
            || Status.eqb (FileResult.status res) Status.error); reflexivity.
Qed.

Lemma count_ok (t : Tally.t) (res : FileResult.t) :
  FileResult.status res = Status.ok
  \/ (FileResult.status res = Status.skipped /\ FileResult.ok res = true) ->
  count t res
  = Tally.make (Tally.checked t + 1) (Tally.ok_count t + 1)
      (Tally.bad_count t) (Tally.damaged_list t).
Proof.
  unfold count. intros [->|[-> ->]]; reflexivity.
Qed.

Lemma count_bad (t : Tally.t) (res : FileResult.t) :
  FileResult.status res = Status.damaged
  \/ FileResult.status res = Status.error ->
  count t res
  = Tally.make (Tally.checked t + 1) (Tally.ok_count t)
      (Tally.bad_count t + 1) (Tally.damaged_list t ++ [res]).
Proof.
  unfold count. intros [->| ->]; destruct (FileResult.ok res); reflexivity.
Qed.

Lemma count_counted (supp : bool) (path : Path) (mode : str) (t : Tally.t)
  (res : FileResult.t) :
  well_formed supp path mode res -> counted t -> counted (count t res).
Proof.
  intros (_ & _ & _ & Hskip & _) [Hc Hd]. unfold counted.
  destruct (FileResult.status res) eqn:E.
  - rewrite count_ok by (left; exact E). cbn. lia.
  - rewrite count_bad by (left; exact E). cbn.
    rewrite length_app, Nat2Z.inj_add. cbn. lia.
  - rewrite count_bad by (right; exact E). cbn.
    rewrite length_app, Nat2Z.inj_add. cbn. lia.
  - rewrite count_ok by (right; split; [exact E|now apply Hskip]). cbn. lia.
Qed.

Lemma as_completed_app (h : Host) (mode : str) (timeout : Z)
  (image_exts video_exts : list str) (done rest : list Path) :
  forall t s,
    as_completed h mode timeout image_exts video_exts (done ++ rest) t s
    = match as_completed h mode timeout image_exts video_exts done t s with
      | (Return t', s') =>
          as_completed h mode timeout image_exts video_exts rest t' s'
      | (Raise e, s') => (Raise e, s')
      end.
Proof.
  induction done as [|p done IH]; intros t s; [reflexivity|].
  cbn [app as_completed]. unfold bind.
  destruct (audit_one h p mode timeout image_exts video_exts s) as [[res|e] s'];
    [apply IH|reflexivity].
Qed.

Lemma as_completed_returns (h : Host) (mode : str) (timeout : Z)
  (image_exts video_exts : list str) (completed : list Path) :
  forall t s,
    counted t ->
    exists t' s',
      as_completed h mode timeout image_exts video_exts completed t s
      = (Return t', s')
      /\ Tally.checked t' = Tally.checked t + Z.of_nat (List.length completed)
      /\ counted t'.
Proof.
  induction completed as [|p rest IH]; intros t s Ht.
  - exists t, s. cbn. repeat split; try apply Ht. lia.
  - destruct (audit_one_well_formed h p mode timeout image_exts video_exts s)
      as (res & s1 & E & Hwf).
    destruct (IH (count t res) s1 (count_counted _ _ _ _ _ Hwf Ht))
      as (t' & s' & E' & Hn & Hc).
    exists t', s'. cbn [as_completed]. unfold bind. rewrite E, E'.
    repeat split; try apply Hc.
    rewrite Hn, count_checked. cbn [List.length]. lia.
Qed.

Lemma counted_zero : counted Tally.zero.
Proof. split; reflexivity. Qed.

Lemma as_completed_with_app
  (evaluators : evaluator -> Path -> Z -> M (bool * str))
  (h : Host) (mode : str) (timeout : Z)
  (image_exts video_exts : list str) (done rest : list Path) :
  forall t s,
    as_completed_with evaluators h mode timeout image_exts video_exts
      (done ++ rest) t s
    = match as_completed_with evaluators h mode timeout image_exts video_exts
              done t s with
      | (Return t', s') =>
          as_completed_with evaluators h mode timeout image_exts video_exts
            rest t' s'
      | (Raise e, s') => (Raise e, s')
      end.
Proof.
  induction done as [|p done IH]; intros t s; [reflexivity|].
  cbn [app as_completed_with]. unfold bind.
  destruct (audit_with evaluators h p mode timeout image_exts video_exts s)
    as [[res|e] s']; [apply IH|reflexivity].
Qed.

Lemma as_completed_with_returns
  (evaluators : evaluator -> Path -> Z -> M (bool * str))
  (h : Host) (mode : str) (timeout : Z)
  (image_exts video_exts : list str) (completed : list Path) :
  forall t s,
    counted t ->
    exists t' s',
      as_completed_with evaluators h mode timeout image_exts video_exts
        completed t s = (Return t', s')
      /\ Tally.checked t' = Tally.checked t + Z.of_nat (List.length completed)
      /\ counted t'.
Proof.
  induction completed as [|p rest IH]; intros t s Ht.
  - exists t, s. cbn. repeat split; try apply Ht. lia.
  - destruct (audit_with_returns evaluators h p mode timeout
                image_exts video_exts s) as (res & s1 & E & Hwf).
    destruct (IH (count t res) s1 (count_counted _ _ _ _ _ Hwf Ht))
      as (t' & s' & E' & Hn & Hc).
    exists t', s'. cbn [as_completed_with]. unfold bind. rewrite E, E'.
    repeat split; try apply Hc.
    rewrite Hn, count_checked. cbn [List.length]. lia.
Qed.

(** The loop of the program is the loop for its own evaluators. *)
Lemma as_completed_instance (h : Host) (mode : str) (timeout : Z)
  (image_exts video_exts : list str) (completed : list Path) :
  forall t s,
    as_completed h mode timeout image_exts video_exts completed t s
    = as_completed_with (tier_evaluators h) h mode timeout
        image_exts video_exts completed t s.
Proof.
  induction completed as [|p rest IH]; intros t s; [reflexivity|].
  cbn [as_completed as_completed_with]. unfold bind, audit_one.
  destruct (audit_with (tier_evaluators h) h p mode timeout
              image_exts video_exts s) as [[res|e] s'];
    [apply IH|reflexivity].
Qed.

(** C5. Whatever the evaluators do, and so for the loop of the program,
    which is [as_completed_with] at its own evaluators: for every list of
    discovered files and every order in which their audits complete, the
    loop returns; the tally after any number of completions has [checked]
    equal to that number, equal to [ok_count + bad_count], and at most the
    total; the damaged list holds as many results as [bad_count]; the next
    completion adds exactly one to [checked], its result has status [ok],
    [skipped] with [ok = True], [damaged] or [error], it is counted in
    [ok_count] in the first two cases, and in [bad_count] and appended to
    the damaged list in the last two; at the end [checked] is the total. *)
Theorem tally_counts_every_completion
  (evaluators : evaluator -> Path -> Z -> M (bool * str))
  (h : Host) (mode : str) (timeout : Z)
  (image_exts video_exts : list str) (all_files completed : list Path)
  (s : State) :
  Permutation completed all_files ->
  let total := Z.of_nat (List.length all_files) in
  let loop :=
    as_completed_with evaluators h mode timeout image_exts video_exts in
  (forall done rest,
      completed = done ++ rest ->
      exists t s',
        loop done Tally.zero s = (Return t, s')
        /\ Tally.checked t = Z.of_nat (List.length done)
        /\ Tally.checked t = Tally.ok_count t + Tally.bad_count t
        /\ Z.of_nat (List.length (Tally.damaged_list t)) = Tally.bad_count t
        /\ Tally.checked t <= total
        /\ forall p rest',
            rest = p :: rest' ->
            exists res s'',
              audit_with evaluators h p mode timeout image_exts video_exts s'
              = (Return res, s'')
              /\ loop (done ++ [p]) Tally.zero s = (Return (count t res), s'')
              /\ Tally.checked (count t res) = Tally.checked t + 1
              /\ (FileResult.status res = Status.ok
                  \/ (FileResult.status res = Status.skipped
                      /\ FileResult.ok res = true)
                  \/ FileResult.status res = Status.damaged
                  \/ FileResult.status res = Status.error)
              /\ (FileResult.status res = Status.ok
                  \/ (FileResult.status res = Status.skipped
                      /\ FileResult.ok res = true) ->
                  Tally.ok_count (count t res) = Tally.ok_count t + 1
                  /\ Tally.bad_count (count t res) = Tally.bad_count t
                  /\ Tally.damaged_list (count t res) = Tally.damaged_list t)
              /\ (FileResult.status res = Status.damaged
                  \/ FileResult.status res = Status.error ->
                  Tally.ok_count (count t res) = Tally.ok_count t
                  /\ Tally.bad_count (count t res) = Tally.bad_count t + 1
                  /\ Tally.damaged_list (count t res)
                     = Tally.damaged_list t ++ [res]))
  /\ (exists t s',
         loop completed Tally.zero s = (Return t, s')
         /\ Tally.checked t = total
         /\ Tally.checked t = Tally.ok_count t + Tally.bad_count t
         /\ Z.of_nat (List.length (Tally.damaged_list t)) = Tally.bad_count t)
  /\ (forall t0 s0,
         as_completed h mode timeout image_exts video_exts completed t0 s0
         = as_completed_with (tier_evaluators h) h mode timeout
             image_exts video_exts completed t0 s0).
Proof.
  intros Hperm total loop. subst total loop.
  rewrite <- (Permutation_length Hperm).
  split; [|split; [|apply as_completed_instance]].
  - intros done rest ->.
    destruct (as_completed_with_returns evaluators h mode timeout
                image_exts video_exts done Tally.zero s counted_zero)
      as (t & s' & E & Hn & Hc & Hd).
    exists t, s'. split; [exact E|].
    split; [rewrite Hn; cbn; lia|]. split; [exact Hc|]. split; [exact Hd|].
    split; [rewrite Hn, length_app, Nat2Z.inj_add; cbn; lia|].
    intros p rest' ->.
    destruct (audit_with_returns evaluators h p mode timeout
                image_exts video_exts s') as (res & s'' & Er & Hwf).
    exists res, s''. split; [exact Er|].
    split.
    { rewrite as_completed_with_app, E. cbn [as_completed_with]. unfold bind.
      now rewrite Er. }
    split; [apply count_checked|].
    split.
    { destruct Hwf as (_ & _ & _ & Hskip & _).
      destruct (FileResult.status res) eqn:Es; auto. }
    split; intros H.
    + rewrite (count_ok t res H). repeat split.
    + rewrite (count_bad t res H). repeat split.
  - destruct (as_completed_with_returns evaluators h mode timeout
                image_exts video_exts completed Tally.zero s counted_zero)
      as (t & s' & E & Hn & Hc & Hd).
    exists t, s'. split; [exact E|]. split; [rewrite Hn; cbn; lia|].
    split; [exact Hc|exact Hd].
Qed.

(** ** The statements at concrete inputs *)

Import Fixture.

(** C1 on a host where the probe and the first frame fail. *)
Lemma slow_verdict_is_full_decode_witness :
  supported authoritative clip exts exts = true
  /\ exists fr s' why_full,
      audit_one authoritative clip (lit "slow") 120 exts exts start
      = (Return fr, s')
      /\ fst (check_full_decode authoritative clip 120 start)
         = Return (FileResult.ok fr, why_full)
      /\ fst (check_fast authoritative clip 120 start)
         = Return (false, lit "ffprobe rc=1 err_len=40; exiftool unavailable").
Proof.
  split; [reflexivity|].
  destruct (proj1 slow_verdict_is_full_decode authoritative clip 120 exts exts
              start eq_refl) as (fr & s' & why & E & _ & Hfull & _).
  exists fr, s', why. split; [exact E|]. split; [apply Hfull|].
  vm_compute. reflexivity.
Defined.

(** C2 on a host where both tools are content. *)
Lemma fast_verdict_iff_clean_tool_witness :
  supported h0 clip exts exts = true
  /\ outcome h0 (ffprobe_cmd clip) 120 = (0, [], [])
  /\ outcome h0 (exiftool_cmd clip) 120 = (0, [], [])
  /\ exists fr s',
      audit_one h0 clip (lit "fast") 120 exts exts start = (Return fr, s')
      /\ FileResult.ok fr = true.
Proof.
  split; [reflexivity|].
  split; [vm_compute; reflexivity|].
  split; [vm_compute; reflexivity|].
  destruct (fast_verdict_iff_clean_tool h0 clip 120 exts exts start
              0 0 [] [] [] [] eq_refl
              ltac:(vm_compute; reflexivity) ltac:(vm_compute; reflexivity))
    as (fr & s' & E & Hiff & _).
  exists fr, s'. split; [exact E|].
  apply Hiff. left. repeat split.
Defined.

(** C3 on a host where the first frame is broken. *)
Lemma medium_verdict_is_conjunction_witness :
  supported broken_frame clip exts exts = true
  /\ exists fr s' ok_fast ok_first,
      audit_one broken_frame clip (lit "medium") 120 exts exts start
      = (Return fr, s')
      /\ In (Invoke FirstFrameDecode) (trace s')
      /\ FileResult.ok fr = ok_fast && ok_first.
Proof.
  split; [reflexivity|].
  destruct (medium_verdict_is_conjunction broken_frame clip 120 exts exts
              start eq_refl)
    as (fr & s' & ok_fast & why_fast & ok_first & why_first
        & E & _ & _ & Htr & Hok & _).
  exists fr, s', ok_fast, ok_first. split; [exact E|]. split; [|exact Hok].
  rewrite Htr. apply in_or_app. right. right.
  apply in_or_app. right. left. reflexivity.
Defined.


(** C5 on two files whose audits complete in the other order, with a
    first-frame decode that raises: the result of [clip] has status [error]
    and is counted in [bad_count]. *)
Lemma tally_counts_every_completion_witness :
  Permutation [note; clip] [clip; note]
  /\ exists t s',
      as_completed_with (faulty h0) h0 (lit "medium") 120 exts exts
        [note; clip] Tally.zero start = (Return t, s')
      /\ Tally.checked t = 2
      /\ Tally.checked t = Tally.ok_count t + Tally.bad_count t
      /\ Tally.bad_count t = 1
      /\ map FileResult.status (Tally.damaged_list t) = [Status.error].
Proof.
  split; [apply perm_swap|].
  destruct (proj1 (proj2 (tally_counts_every_completion (faulty h0) h0
                            (lit "medium") 120 exts exts [clip; note]
                            [note; clip] start (perm_swap _ _ _))))
    as (t & s' & E & Hn & Hc & _).
  exists t, s'. split; [exact E|]. split; [exact Hn|]. split; [exact Hc|].
  assert (E0 : as_completed_with (faulty h0) h0 (lit "medium") 120 exts exts
                 [note; clip] Tally.zero start = (Return t, s')) by exact E.
  vm_compute in E0. injection E0 as Ht _. rewrite <- Ht.
  split; reflexivity.
Defined.

(** C6 with a first-frame decode that raises [MemoryError]. *)
Lemma audit_contains_exceptions_witness :
  exists fr s',
    audit_with (faulty h0) h0 clip (lit "medium") 120 exts exts start
    = (Return fr, s')
    /\ FileResult.status fr = Status.error
    /\ FileResult.ok fr = false
    /\ FileResult.reason fr = lit "Exception: MemoryError()".
Proof.
  destruct (audit_contains_exceptions (faulty h0) h0 clip (lit "medium") 120
              exts exts start) as (fr & s' & E & H).
  exists fr, s'. split; [exact E|].
  destruct (H MemoryError
              (extend (tick start)
                 [Invoke ContainerProbe; Spawn (ffprobe_cmd clip) 120;
                  Spawn (exiftool_cmd clip) 120; Invoke FirstFrameDecode])
              ltac:(vm_compute; reflexivity))
    as (Hs & Hok & Hr & _).
  repeat split; assumption.
Defined.

(** C7 on a host where every process runs out of time. *)
Lemma timeouts_are_contained_witness :
  supported all_hang clip exts exts = true
  /\ timed_out all_hang (full_decode_cmd clip) 120
  /\ exists fr s',
      audit_one all_hang clip (lit "slow") 120 exts exts start
      = (Return fr, s')
      /\ FileResult.ok fr = false
      /\ FileResult.status fr = Status.damaged.
Proof.
  assert (H : timed_out all_hang (full_decode_cmd clip) 120)
    by (exists TimeoutExpired_; split; reflexivity).
  split; [reflexivity|]. split; [exact H|].
  exact (proj2 (proj2 (proj2 (proj2 (proj2 (timeouts_are_contained all_hang)))
                         clip 120 exts exts start eq_refl))
           (fun _ => H)).
Defined.

(** C8 on a byte that only Latin-1 accepts. *)
Lemma decode_never_raises_witness :
  encodings h0
  = [lit "utf-8"; lit "UTF-8"; lit "gbk"; lit "cp936"] ++ [lit "latin-1"]
  /\ bytes_decode h0 (lit "latin-1") Strict [xff]%byte = Return [255%N]
  /\ _decode h0 [xff]%byte = Return [255%N].
Proof.
  split; [reflexivity|]. split; [reflexivity|].
  apply (proj1 (proj2 (proj2 (decode_never_raises h0 [xff]%byte)))
           [lit "utf-8"; lit "UTF-8"; lit "gbk"; lit "cp936"]
           (lit "latin-1") [] [255%N]).
  - reflexivity.
  - repeat constructor; eexists; reflexivity.
  - reflexivity.
Defined.

(** C9 on a host where the decoder complains. *)
Lemma diagnostics_report_exit_status_witness :
  HAS_FFMPEG chatty = true
  /\ outcome chatty (first_frame_cmd clip) 120 = (1, [], lit "  x ")
  /\ fst (check_decode_first_frame chatty clip 120 start)
     = Return (false, lit "ffmpeg[first-frame] rc=1 err_len=1").
Proof.
  split; [reflexivity|].
  assert (H : outcome chatty (first_frame_cmd clip) 120 = (1, [], lit "  x "))
    by (vm_compute; reflexivity).
  split; [exact H|].
  exact (proj1 (proj2 (diagnostics_report_exit_status chatty clip 120))
           eq_refl 1 [] (lit "  x ") H start).
Defined.

(** C10 on two hosts whose clocks differ. *)
Lemma audit_is_deterministic_witness :
  same_tools h0 (healthy 1000 (1 # 2))
  /\ supported h0 clip exts exts
     = supported (healthy 1000 (1 # 2)) clip exts exts
  /\ same_outcomes h0 (healthy 1000 (1 # 2)) 120
  /\ exists fr1 fr2 s1' s2',
      audit_one h0 clip (lit "medium") 120 exts exts start = (Return fr1, s1')
      /\ audit_one (healthy 1000 (1 # 2)) clip (lit "medium") 120 exts exts
           (tick start) = (Return fr2, s2')
      /\ FileResult.ok fr1 = FileResult.ok fr2
      /\ FileResult.status fr1 = FileResult.status fr2.
Proof.
  assert (Ht : same_tools h0 (healthy 1000 (1 # 2)))
    by (repeat split).
  assert (Ho : same_outcomes h0 (healthy 1000 (1 # 2)) 120)
    by (intros cmd; reflexivity).
  split; [exact Ht|]. split; [reflexivity|]. split; [exact Ho|].
  destruct (audit_is_deterministic h0 (healthy 1000 (1 # 2)) clip
              (lit "medium") 120 exts exts start (tick start) Ht eq_refl Ho)
    as (fr1 & fr2 & s1' & s2' & E1 & E2 & Hok & Hst & _).
  exists fr1, fr2, s1', s2'. repeat split; assumption.
Defined.

(** * Further properties of the code *)

(** ** File auditor *)

Lemma str_eqb_neq (a b : str) : str_eqb a b = false <-> a <> b.
Proof.
  unfold str_eqb. destruct (list_eq_dec N.eq_dec a b); split; congruence.
Qed.

(** X1. A file whose extension is in neither active set is not examined at
    all: in every mode and on every host the auditor returns [skipped] with
    [ok = True] and the reason ["unsupported extension"], calls no evaluator
    and starts no process; it only reads the clock twice. *)
Theorem unsupported_file_starts_nothing (h : Host) (path : Path) (mode : str)
  (timeout : Z) (image_exts video_exts : list str) (s : State) :
  supported h path image_exts video_exts = false ->
  exists ms,
    audit_one h path mode timeout image_exts video_exts s
    = (Return (FileResult.make path true Status.skipped
                 (lit "unsupported extension") mode ms),
       {| ticks := S (S (ticks s)); trace := trace s |}).
Proof.
  intros Hs.
  pose proof (audit_one_returns h path mode timeout image_exts video_exts s)
    as E.
  cbv zeta in E. unfold audit_events in E. rewrite Hs in E.
  rewrite extend_nil in E. eexists. exact E.
Qed.

Lemma spawns_of_audit (h : Host) (path : Path) (mode : str) (timeout : Z)
  (image_exts video_exts : list str) (cmd : list str) (t : Z) :
  In (Spawn cmd t) (audit_events h path mode timeout image_exts video_exts) ->
  t = timeout
  /\ ((cmd = ffprobe_cmd path /\ HAS_FFPROBE h = true)
      \/ (cmd = exiftool_cmd path /\ HAS_EXIFTOOL h = true)
      \/ (cmd = first_frame_cmd path /\ HAS_FFMPEG h = true
          /\ mode <> lit "fast")
      \/ (cmd = full_decode_cmd path /\ HAS_FFMPEG h = true
          /\ mode <> lit "fast" /\ mode <> lit "medium")).
Proof.
  unfold audit_events, announced, spawns.
  destruct (supported h path image_exts video_exts); [|intros []].
  destruct (str_eqb mode (lit "fast")) eqn:Ef;
    [|apply str_eqb_neq in Ef;
      destruct (str_eqb mode (lit "medium")) eqn:Em;
      [|apply str_eqb_neq in Em]];
    destruct (HAS_FFPROBE h), (HAS_EXIFTOOL h), (HAS_FFMPEG h);
    cbn [app In];
    intros H;
    repeat match goal with
      | H : _ \/ _ |- _ => destruct H as [H|H]
      | H : False |- _ => destruct H
      | H : Invoke _ = Spawn _ _ |- _ => discriminate H
      | H : Spawn _ _ = Spawn _ _ |- _ => injection H as <- <-
      end;
    (split; [reflexivity|]); tauto.
Qed.

Lemma spawn_count_of_audit (h : Host) (path : Path) (mode : str) (timeout : Z)
  (image_exts video_exts : list str) :
  let n := List.length
             (filter is_spawn
                (audit_events h path mode timeout image_exts video_exts)) in
  (n <= 4)%nat
  /\ (mode = lit "fast" -> (n <= 2)%nat)
  /\ (mode = lit "medium" -> (n <= 3)%nat).
Proof.
  unfold audit_events, announced, spawns.
  destruct (supported h path image_exts video_exts);
    [|cbn; repeat split; intros; lia].
  destruct (str_eqb mode (lit "fast")) eqn:Ef;
    [|apply str_eqb_neq in Ef;
      destruct (str_eqb mode (lit "medium")) eqn:Em;
      [|apply str_eqb_neq in Em]];
    destruct (HAS_FFPROBE h), (HAS_EXIFTOOL h), (HAS_FFMPEG h);
    cbn [app filter is_spawn List.length]; repeat split; intros;
    try lia; subst mode; congruence.
Qed.

(** X2. Every process an audit starts is one of the four command lines of
    the source on the audited path, run with the timeout given, and only for
    a tool whose flag is set; the fast tier starts no decoder, the medium
    tier no full decode. An audit starts at most four processes, at most two
    in the fast tier and three in the medium tier. *)
Theorem audit_starts_only_its_tools (h : Host) (path : Path) (mode : str)
  (timeout : Z) (image_exts video_exts : list str) (s : State) :
  exists fr s' evs,
    audit_one h path mode timeout image_exts video_exts s = (Return fr, s')
    /\ trace s' = trace s ++ evs
    /\ (forall cmd t,
           In (Spawn cmd t) evs ->
           t = timeout
           /\ ((cmd = ffprobe_cmd path /\ HAS_FFPROBE h = true)
               \/ (cmd = exiftool_cmd path /\ HAS_EXIFTOOL h = true)
               \/ (cmd = first_frame_cmd path /\ HAS_FFMPEG h = true
                   /\ mode <> lit "fast")
               \/ (cmd = full_decode_cmd path /\ HAS_FFMPEG h = true
                   /\ mode <> lit "fast" /\ mode <> lit "medium")))
    /\ (List.length (filter is_spawn evs) <= 4)%nat
    /\ (mode = lit "fast" -> (List.length (filter is_spawn evs) <= 2)%nat)
    /\ (mode = lit "medium" -> (List.length (filter is_spawn evs) <= 3)%nat).
Proof.
  pose proof (audit_one_returns h path mode timeout image_exts video_exts s)
    as E.
  cbv zeta in E.
  eexists; eexists;
    exists (audit_events h path mode timeout image_exts video_exts).
  split; [exact E|]. split; [reflexivity|].
  split; [apply spawns_of_audit|].
  apply (spawn_count_of_audit h path mode timeout image_exts video_exts).
Qed.

(** X3. With the evaluators of the program the auditor never answers
    [error]: [run] turns every exception of a process into an exit status,
    so the status is [ok], [damaged] or [skipped], and [ok] is false exactly
    for [damaged]. *)
Theorem audit_one_never_errors (h : Host) (path : Path) (mode : str)
  (timeout : Z) (image_exts video_exts : list str) (s : State) :
  exists fr s',
    audit_one h path mode timeout image_exts video_exts s = (Return fr, s')
    /\ FileResult.status fr <> Status.error
    /\ (FileResult.ok fr = false <-> FileResult.status fr = Status.damaged)
    /\ (FileResult.ok fr = true
        <-> FileResult.status fr = Status.ok
            \/ FileResult.status fr = Status.skipped).
Proof.
  pose proof (audit_one_returns h path mode timeout image_exts video_exts s)
    as E.
  cbv zeta in E. eexists; eexists. split; [exact E|].
  destruct (supported h path image_exts video_exts);
    [destruct (str_eqb mode (lit "fast"));
     [|destruct (str_eqb mode (lit "medium"))]|];
    cbn [FileResult.ok FileResult.status];
    repeat match goal with
      | |- context [if ?b then _ else _] => destruct b
      end;
    repeat split; intros; try discriminate; try reflexivity;
    try (left; reflexivity); try (right; reflexivity);
    repeat match goal with H : _ \/ _ |- _ => destruct H end;
    discriminate.
Qed.

(** X4. On one host, a file that passes the medium tier passes the fast
    tier: the medium verdict is the fast verdict and one more check. *)
Theorem medium_pass_implies_fast_pass (h : Host) (path : Path) (timeout : Z)
  (image_exts video_exts : list str) (s1 s2 s1' : State)
  (fr : FileResult.t) :
  audit_one h path (lit "medium") timeout image_exts video_exts s1
  = (Return fr, s1') ->
  FileResult.ok fr = true ->
  exists fr2 s2',
    audit_one h path (lit "fast") timeout image_exts video_exts s2
    = (Return fr2, s2')
    /\ FileResult.ok fr2 = true
    /\ FileResult.status fr2 = FileResult.status fr.
Proof.
  intros E Hok.
  pose proof (audit_one_returns h path (lit "medium") timeout
                image_exts video_exts s1) as E1.
  pose proof (audit_one_returns h path (lit "fast") timeout
                image_exts video_exts s2) as E2.
  cbv zeta in E1, E2. rewrite E in E1. injection E1 as -> _.
  eexists; eexists. split; [exact E2|].
  destruct (supported h path image_exts video_exts); [|split; reflexivity].
  change (str_eqb (lit "medium") (lit "fast")) with false in Hok |- *.
  change (str_eqb (lit "medium") (lit "medium")) with true in Hok |- *.
  change (str_eqb (lit "fast") (lit "fast")) with true.
  cbn [FileResult.ok FileResult.status] in Hok |- *.
  apply andb_true_iff in Hok as [Hf Hd]. rewrite Hf, Hd. split; reflexivity.
Qed.

(** X5. Without the decoder every supported file is reported damaged in
    every mode but fast, whatever the probe finds, and the reason says that
    ffmpeg is unavailable. *)
Theorem no_decoder_means_damaged (h : Host) (path : Path) (mode : str)
  (timeout : Z) (image_exts video_exts : list str) (s : State) :
  HAS_FFMPEG h = false ->
  supported h path image_exts video_exts = true ->
  mode <> lit "fast" ->
  exists fr s',
    audit_one h path mode timeout image_exts video_exts s = (Return fr, s')
    /\ FileResult.ok fr = false
    /\ FileResult.status fr = Status.damaged
    /\ contains (lit "ffmpeg unavailable") (FileResult.reason fr) = true
    /\ forall cmd t, In (Spawn cmd t) (trace s') ->
         In (Spawn cmd t) (trace s)
         \/ cmd = ffprobe_cmd path \/ cmd = exiftool_cmd path.
Proof.
  intros Hf Hs Hm.
  pose proof (audit_one_returns h path mode timeout image_exts video_exts s)
    as E.
  cbv zeta in E. rewrite Hs in E. apply str_eqb_neq in Hm. rewrite Hm in E.
  rewrite verdict_of_first_frame, verdict_of_full_decode, Hf in E.
  cbn [fst snd] in E. rewrite andb_false_r in E.
  eexists; eexists. split; [exact E|].
  split; [now destruct (str_eqb mode (lit "medium"))|].
  split; [now destruct (str_eqb mode (lit "medium"))|].
  split.
  - destruct (str_eqb mode (lit "medium")); cbn [FileResult.reason].
    + apply contains_skip, contains_skip, contains_skip, contains_skip.
      apply contains_self.
    + apply contains_skip, contains_skip, contains_skip, contains_skip.
      apply contains_here.
  - intros cmd t H. cbn [extend trace tick] in H.
    apply in_app_or in H as [H|H]; [left; exact H|right].
    apply spawns_of_audit in H as (_ & [[-> _]|[[-> _]|[H|H]]]);
      [left; reflexivity|right; reflexivity| |];
      destruct H as (_ & H & _); congruence.
Qed.

(** X6. The auditor treats every mode that is neither ["fast"] nor
    ["medium"] as the slow tier: the result differs from the one of
    ["slow"] in the recorded mode only. *)
Theorem other_modes_act_as_slow (h : Host) (path : Path) (mode : str)
  (timeout : Z) (image_exts video_exts : list str) (s : State) :
  mode <> lit "fast" -> mode <> lit "medium" ->
  exists fr fr' s',
    audit_one h path mode timeout image_exts video_exts s = (Return fr, s')
    /\ audit_one h path (lit "slow") timeout image_exts video_exts s
       = (Return fr', s')
    /\ FileResult.ok fr = FileResult.ok fr'
    /\ FileResult.status fr = FileResult.status fr'
    /\ FileResult.reason fr = FileResult.reason fr'
    /\ FileResult.duration_ms fr = FileResult.duration_ms fr'
    /\ FileResult.mode fr = mode.
Proof.
  intros Hf Hm. apply str_eqb_neq in Hf, Hm.
  pose proof (audit_one_returns h path mode timeout image_exts video_exts s)
    as E.
  pose proof (audit_one_returns h path (lit "slow") timeout
                image_exts video_exts s) as E'.
  cbv zeta in E, E'. unfold audit_events in E, E'. rewrite Hf, Hm in E.
  change (str_eqb (lit "slow") (lit "fast")) with false in E'.
  change (str_eqb (lit "slow") (lit "medium")) with false in E'.
  do 3 eexists. split; [exact E|]. split; [exact E'|].
  destruct (supported h path image_exts video_exts); repeat split.
Qed.

(** X7. The reason of a result carries the text of its tier and the
    diagnostic of every evaluator that ran: the one of the probe in the fast
    tier, the three of them in the slow tier. *)
Theorem reason_embeds_diagnostics (h : Host) (path : Path) (timeout : Z)
  (image_exts video_exts : list str) (s : State) :
  supported h path image_exts video_exts = true ->
  exists fast slow s1 s2 b1 b2 b3 why_fast why_first why_full,
    audit_one h path (lit "fast") timeout image_exts video_exts s
    = (Return fast, s1)
    /\ audit_one h path (lit "slow") timeout image_exts video_exts s
       = (Return slow, s2)
    /\ (forall s0, fst (check_fast h path timeout s0)
                   = Return (b1, why_fast))
    /\ (forall s0, fst (check_decode_first_frame h path timeout s0)
                   = Return (b2, why_first))
    /\ (forall s0, fst (check_full_decode h path timeout s0)
                   = Return (b3, why_full))
    /\ FileResult.reason fast = FAST_BASIS ++ lit " | diag: " ++ why_fast
    /\ starts_with SLOW_BASIS (FileResult.reason slow) = true
    /\ contains why_fast (FileResult.reason slow) = true
    /\ contains why_first (FileResult.reason slow) = true
    /\ contains why_full (FileResult.reason slow) = true.
Proof.
  intros Hs.
  pose proof (audit_one_returns h path (lit "fast") timeout
                image_exts video_exts s) as E1.
  pose proof (audit_one_returns h path (lit "slow") timeout
                image_exts video_exts s) as E2.
  cbv zeta in E1, E2. rewrite Hs in E1, E2.
  change (str_eqb (lit "fast") (lit "fast")) with true in E1.
  change (str_eqb (lit "slow") (lit "fast")) with false in E2.
  change (str_eqb (lit "slow") (lit "medium")) with false in E2.
  cbv iota in E1, E2.
  destruct (verdict_of h ContainerProbe path timeout) as [b1 d1] eqn:V1.
  destruct (verdict_of h FirstFrameDecode path timeout) as [b2 d2] eqn:V2.
  destruct (verdict_of h FullTrackDecode path timeout) as [b3 d3] eqn:V3.
  do 4 eexists. exists b1, b2, b3, d1, d2, d3.
  split; [exact E1|]. split; [exact E2|].
  cbn [FileResult.reason fst snd].
  split; [intros s0; now rewrite check_fast_value, V1|].
  split; [intros s0; now rewrite check_decode_first_frame_value, V2|].
  split; [intros s0; now rewrite check_full_decode_value, V3|].
  split; [reflexivity|].
  split; [apply starts_with_app|].
  split; [apply contains_skip, contains_skip, contains_here|].
  split.
  - apply contains_skip, contains_skip, contains_skip, contains_skip.
    apply contains_here.
  - do 6 apply contains_skip. apply contains_self.
Qed.

(** ** Decoding *)

Lemma decode_loop_hit (h : Host) (buf : bytes) (encs : list str) :
  (exists enc s, In enc encs /\ bytes_decode h enc Strict buf = Return s) ->
  exists enc s,
    In enc encs
    /\ bytes_decode h enc Strict buf = Return s
    /\ decode_loop h buf encs = Return s.
Proof.
  induction encs as [|e rest IH]; intros (enc & s & Hin & Hs);
    [destruct Hin|].
  cbn [decode_loop].
  destruct (bytes_decode h e Strict buf) as [s'|x] eqn:He.
  - exists e, s'. repeat split; [left; reflexivity|exact He].
  - destruct Hin as [->|Hin]; [congruence|].
    destruct IH as (enc' & s' & Hin' & Hs' & Hl); [now exists enc, s|].
    exists enc', s'. repeat split; [right; exact Hin'|exact Hs'|exact Hl].
Qed.

(** X8. [_decode] never gets to its lossy last line: the text it returns is
    always the strict decoding of the bytes under one of the five encodings
    of its loop, since Latin-1, the last of them, rejects nothing. When the
    four encodings before Latin-1 reject the bytes, the text has one code
    point per byte, of the same number: nothing is replaced. *)
Theorem decode_is_never_lossy (h : Host) (buf : bytes) :
  (exists enc s,
      In enc (encodings h)
      /\ bytes_decode h enc Strict buf = Return s
      /\ _decode h buf = Return s)
  /\ (Forall (fun enc => exists x, bytes_decode h enc Strict buf = Raise x)
        [lit "utf-8"; or_else (getpreferredencoding h) (lit "utf-8");
         lit "gbk"; lit "cp936"] ->
      _decode h buf = Return (map Byte.to_N buf)).
Proof.
  split.
  - apply decode_loop_hit. exists (lit "latin-1"), (latin1_decode buf).
    split; [|apply decode_latin1].
    unfold encodings. right; right; right; right; left. reflexivity.
  - intros H. unfold _decode.
    change (encodings h)
      with ([lit "utf-8"; or_else (getpreferredencoding h) (lit "utf-8");
             lit "gbk"; lit "cp936"] ++ lit "latin-1" :: []).
    apply decode_loop_first; [exact H|apply decode_latin1].
Qed.

Lemma utf8_go_ascii (e : errors) (buf : bytes) :
  Forall (fun b => (Byte.to_N b < 128)%N) buf ->
  forall out, utf8_go e Boundary out buf = Some (rev out ++ map Byte.to_N buf).
Proof.
  induction 1 as [|b rest Hb _ IH]; intros out; cbn [utf8_go map].
  - now rewrite app_nil_r.
  - unfold classify. apply N.ltb_lt in Hb. rewrite Hb.
    rewrite IH. cbn [rev]. now rewrite <- app_assoc.
Qed.

(** X9. Output that is valid UTF-8 is decoded as UTF-8 on every host,
    whatever its locale and codecs; in particular ASCII output comes back
    character for character, and empty output as the empty string. *)
Theorem decode_prefers_utf8 (h : Host) (buf : bytes) :
  (forall s, utf8_decode Strict buf = Some s -> _decode h buf = Return s)
  /\ (Forall (fun b => (Byte.to_N b < 128)%N) buf ->
      _decode h buf = Return (map Byte.to_N buf))
  /\ _decode h [] = Return [].
Proof.
  assert (H : forall b s, utf8_decode Strict b = Some s ->
                          _decode h b = Return s).
  { intros b s Hs. unfold _decode, encodings. cbn [decode_loop].
    unfold bytes_decode at 1. rewrite str_eqb_refl, Hs. reflexivity. }
  split; [apply H|]. split; [|now apply H].
  intros Ha. apply H. unfold utf8_decode. now rewrite utf8_go_ascii.
Qed.

(** ** Process runner *)

Lemma raised_outcome (h : Host) (cmd : list str) (timeout : Z) (e : exn) :
  subprocess_run h cmd timeout = Raised e ->
  exists rc err,
    outcome h cmd timeout = (rc, [], err)
    /\ (rc = 124 \/ rc = 125)
    /\ (rc = 124 <-> exn_class_of e = TimeoutExpired).
Proof.
  intros H. rewrite (outcome_raised h cmd timeout e H).
  unfold is_TimeoutExpired.
  destruct (exn_class_of e); do 2 eexists;
    (split; [reflexivity|]); split; try (left; reflexivity);
    try (right; reflexivity); split; intros; congruence.
Qed.

Lemma raised_not_clean (h : Host) (cmd : list str) (timeout : Z) (e : exn) :
  subprocess_run h cmd timeout = Raised e ->
  clean_exit (outcome h cmd timeout) = false
  /\ clean_metadata (outcome h cmd timeout) = false.
Proof.
  intros H.
  destruct (raised_outcome h cmd timeout e H) as (rc & err & -> & [->| ->] & _);
    split; reflexivity.
Qed.

(** X10. A process that raises, be it a timeout or a program that cannot be
    started, never looks like a success: [run] answers exit status 124 for
    [TimeoutExpired] and 125 for every other exception, with empty output,
    and the evaluator that asked for the process fails its check. The probe
    fails when each of its installed tools raises. *)
Theorem raised_process_fails_its_check (h : Host) (path : Path)
  (timeout : Z) :
  (forall cmd e s,
      subprocess_run h cmd timeout = Raised e ->
      exists rc err,
        run h cmd timeout s
        = (Return (rc, [], err), extend s [Spawn cmd timeout])
        /\ (rc = 124 \/ rc = 125)
        /\ (rc = 124 <-> exn_class_of e = TimeoutExpired))
  /\ (forall e s,
         HAS_FFMPEG h = true ->
         subprocess_run h (first_frame_cmd path) timeout = Raised e ->
         exists why,
           fst (check_decode_first_frame h path timeout s)
           = Return (false, why))
  /\ (forall e s,
         HAS_FFMPEG h = true ->
         subprocess_run h (full_decode_cmd path) timeout = Raised e ->
         exists why,
           fst (check_full_decode h path timeout s) = Return (false, why))
  /\ (forall s,
         (HAS_FFPROBE h = true ->
          exists e, subprocess_run h (ffprobe_cmd path) timeout = Raised e) ->
         (HAS_EXIFTOOL h = true ->
          exists e, subprocess_run h (exiftool_cmd path) timeout = Raised e) ->
         exists why,
           fst (check_fast h path timeout s) = Return (false, why)).
Proof.
  split; [|split; [|split]].
  - intros cmd e s H.
    destruct (raised_outcome h cmd timeout e H) as (rc & err & Ho & Hrc).
    exists rc, err. split; [|exact Hrc]. now rewrite run_returns, Ho.
  - intros e s Hf H. eexists.
    rewrite check_decode_first_frame_value, verdict_of_first_frame, Hf.
    now rewrite (proj1 (raised_not_clean _ _ _ _ H)).
  - intros e s Hf H. eexists.
    rewrite check_full_decode_value, verdict_of_full_decode, Hf.
    now rewrite (proj1 (raised_not_clean _ _ _ _ H)).
  - intros s Hp Hm.
    rewrite check_fast_value, verdict_of_probe.
    destruct (HAS_FFPROBE h), (HAS_EXIFTOOL h); cbn [app any_flag existsb];
      try (destruct (Hp eq_refl) as [e1 H1];
           rewrite (proj1 (raised_not_clean _ _ _ _ H1)));
      try (destruct (Hm eq_refl) as [e2 H2];
           rewrite (proj2 (raised_not_clean _ _ _ _ H2)));
      eexists; reflexivity.
Qed.

(** ** Scheduler and aggregator *)

Lemma audit_one_passes (h : Host) (path : Path) (mode : str) (timeout : Z)
  (image_exts video_exts : list str) (s : State) :
  exists fr s',
    audit_one h path mode timeout image_exts video_exts s = (Return fr, s')
    /\ FileResult.path fr = path
    /\ FileResult.mode fr = mode
    /\ FileResult.ok fr = passes h mode timeout image_exts video_exts path
    /\ (FileResult.ok fr = false -> FileResult.status fr = Status.damaged)
    /\ (FileResult.ok fr = true ->
        FileResult.status fr = Status.ok
        \/ FileResult.status fr = Status.skipped).
Proof.
  pose proof (audit_one_returns h path mode timeout image_exts video_exts s)
    as E.
  pose proof (audit_one_returns h path mode timeout image_exts video_exts
                start) as E0.
  cbv zeta in E, E0. unfold passes. rewrite E0. cbn [fst].
  eexists; eexists. split; [exact E|].
  destruct (supported h path image_exts video_exts);
    [destruct (str_eqb mode (lit "fast"));
     [|destruct (str_eqb mode (lit "medium"))]|];
    cbn [FileResult.ok FileResult.status FileResult.path FileResult.mode];
    repeat match goal with
      | |- context [if ?b then _ else _] => destruct b
      end;
    repeat split; intros; try discriminate;
    try (left; reflexivity); try (right; reflexivity).
Qed.

(** What the loop adds to a tally, file by file. *)
Lemma as_completed_accounts (h : Host) (mode : str) (timeout : Z)
  (image_exts video_exts : list str) (completed : list Path) :
  let pass := passes h mode timeout image_exts video_exts in
  let fail := fun p => negb (pass p) in
  let bad := fun r => FileResult.ok r = false
                      /\ FileResult.status r = Status.damaged
                      /\ FileResult.mode r = mode in
  forall t s,
    exists t' s',
      as_completed h mode timeout image_exts video_exts completed t s
      = (Return t', s')
      /\ Tally.checked t'
         = Tally.checked t + Z.of_nat (List.length completed)
      /\ Tally.ok_count t'
         = Tally.ok_count t + Z.of_nat (List.length (filter pass completed))
      /\ Tally.bad_count t'
         = Tally.bad_count t + Z.of_nat (List.length (filter fail completed))
      /\ map FileResult.path (Tally.damaged_list t')
         = map FileResult.path (Tally.damaged_list t) ++ filter fail completed
      /\ (Forall bad (Tally.damaged_list t) ->
          Forall bad (Tally.damaged_list t')).
Proof.
  intros pass fail bad. subst pass fail bad. cbv beta.
  induction completed as [|p rest IH]; intros t s.
  - exists t, s. cbn. rewrite app_nil_r. repeat split; try lia. auto.
  - destruct (audit_one_passes h p mode timeout image_exts video_exts s)
      as (res & s1 & E & Hpath & Hmode & Hok & Hbad & Hgood).
    destruct (IH (count t res) s1)
      as (t' & s' & E' & Hn & Hk & Hb & Hl & Hall).
    exists t', s'. cbn [as_completed]. unfold bind. rewrite E, E'.
    split; [reflexivity|]. cbn [filter List.length]. rewrite <- Hok.
    destruct (FileResult.ok res) eqn:Eok; cbn [negb].
    + rewrite (count_ok t res) in Hn, Hk, Hb, Hl, Hall
        by (destruct (Hgood eq_refl) as [H|H]; [left|right]; auto).
      cbn [Tally.checked Tally.ok_count Tally.bad_count Tally.damaged_list]
        in Hn, Hk, Hb, Hl, Hall.
      cbn [List.length]. repeat split; try lia; assumption.
    + rewrite (count_bad t res) in Hn, Hk, Hb, Hl, Hall
        by (left; apply Hbad; reflexivity).
      cbn [Tally.checked Tally.ok_count Tally.bad_count Tally.damaged_list]
        in Hn, Hk, Hb, Hl, Hall.
      cbn [List.length]. repeat split; try lia.
      * rewrite Hl, map_app. cbn [map]. rewrite Hpath, <- app_assoc.
        reflexivity.
      * intros Ht. apply Hall. apply Forall_app. split; [exact Ht|].
        constructor; [|constructor]. repeat split; auto.
Qed.

(** X11. When the loop of [main] ends, the damaged list names exactly the
    files whose audit gave [ok = False], once each and in the order in which
    the audits completed; every entry has status [damaged]; [bad_count] is
    their number and [ok_count] the number of the other files, skipped ones
    included. *)
Theorem failures_listed_in_completion_order (h : Host) (mode : str)
  (timeout : Z) (image_exts video_exts : list str) (completed : list Path)
  (s : State) :
  exists t s',
    as_completed h mode timeout image_exts video_exts completed Tally.zero s
    = (Return t, s')
    /\ map FileResult.path (Tally.damaged_list t)
       = filter (fun p => negb (passes h mode timeout image_exts video_exts p))
           completed
    /\ Forall (fun r => FileResult.ok r = false
                        /\ FileResult.status r = Status.damaged
                        /\ FileResult.mode r = mode)
         (Tally.damaged_list t)
    /\ Tally.bad_count t
       = Z.of_nat
           (List.length
              (filter
                 (fun p => negb (passes h mode timeout image_exts video_exts p))
                 completed))
    /\ Tally.ok_count t
       = Z.of_nat
           (List.length
              (filter (passes h mode timeout image_exts video_exts)
                 completed)).
Proof.
  destruct (as_completed_accounts h mode timeout image_exts video_exts
              completed Tally.zero s)
    as (t & s' & E & _ & Hk & Hb & Hl & Hall).
  exists t, s'. split; [exact E|]. cbn in Hk, Hb, Hl.
  repeat split; try assumption. apply Hall. constructor.
Qed.

Lemma filter_permutation {A} (f : A -> bool) (l l' : list A) :
  Permutation l l' -> Permutation (filter f l) (filter f l').
Proof.
  induction 1 as [|x l l' _ IH|x y l|l l' l'' _ IH1 _ IH2]; cbn [filter].
  - constructor.
  - destruct (f x); [now constructor|exact IH].
  - destruct (f x), (f y); try apply Permutation_refl. apply perm_swap.
  - eapply Permutation_trans; eassumption.
Qed.

(** X12. The counters do not depend on the order in which the audits
    complete, nor on the state the loop starts in: two runs over the same
    files end with the same [checked], [ok_count] and [bad_count], and their
    damaged lists name the same files, possibly in another order. *)
Theorem tally_is_order_independent (h : Host) (mode : str) (timeout : Z)
  (image_exts video_exts : list str) (order1 order2 : list Path)
  (s1 s2 : State) :
  Permutation order1 order2 ->
  exists t1 t2 s1' s2',
    as_completed h mode timeout image_exts video_exts order1 Tally.zero s1
    = (Return t1, s1')
    /\ as_completed h mode timeout image_exts video_exts order2 Tally.zero s2
       = (Return t2, s2')
    /\ Tally.checked t1 = Tally.checked t2
    /\ Tally.ok_count t1 = Tally.ok_count t2
    /\ Tally.bad_count t1 = Tally.bad_count t2
    /\ Permutation (map FileResult.path (Tally.damaged_list t1))
         (map FileResult.path (Tally.damaged_list t2)).
Proof.
  intros Hperm.
  destruct (as_completed_accounts h mode timeout image_exts video_exts
              order1 Tally.zero s1)
    as (t1 & s1' & E1 & Hn1 & Hk1 & Hb1 & Hl1 & _).
  destruct (as_completed_accounts h mode timeout image_exts video_exts
              order2 Tally.zero s2)
    as (t2 & s2' & E2 & Hn2 & Hk2 & Hb2 & Hl2 & _).
  exists t1, t2, s1', s2'. split; [exact E1|]. split; [exact E2|].
  cbn in Hn1, Hn2, Hk1, Hk2, Hb1, Hb2, Hl1, Hl2.
  rewrite Hn1, Hn2, Hk1, Hk2, Hb1, Hb2, Hl1, Hl2.
  rewrite (Permutation_length Hperm).
  rewrite (Permutation_length
             (filter_permutation
                (passes h mode timeout image_exts video_exts) _ _ Hperm)).
  rewrite (Permutation_length
             (filter_permutation
                (fun p => negb (passes h mode timeout image_exts video_exts p))
                _ _ Hperm)).
  repeat split. now apply filter_permutation.
Qed.

(** ** Extension lists *)

Lemma lstrip_snoc (l : str) (c : N) :
  isspace c = false -> lstrip (l ++ [c]) = lstrip l ++ [c].
Proof.
  intros Hc. induction l as [|x l IH]; cbn [app lstrip].
  - now rewrite Hc.
  - destruct (isspace x); [exact IH|reflexivity].
Qed.

Lemma lstrip_idempotent (s : str) : lstrip (lstrip s) = lstrip s.
Proof.
  induction s as [|c s IH]; [reflexivity|]. cbn [lstrip].
  destruct (isspace c) eqn:E; [exact IH|]. cbn [lstrip]. now rewrite E.
Qed.

Lemma rstrip_idempotent (s : str) : rstrip (rstrip s) = rstrip s.
Proof. unfold rstrip. now rewrite rev_involutive, lstrip_idempotent. Qed.

Lemma rstrip_cons (c : N) (s : str) :
  isspace c = false -> rstrip (c :: s) = c :: rstrip s.
Proof.
  intros Hc. unfold rstrip. cbn [rev].
  rewrite (lstrip_snoc _ _ Hc), rev_app_distr. reflexivity.
Qed.

Lemma strip_dot (e : str) : strip e = e -> strip (46%N :: e) = 46%N :: e.
Proof.
  intros H. unfold strip in *. cbn [lstrip].
  change (isspace 46) with false. cbv iota.
  rewrite rstrip_cons by reflexivity. f_equal.
  rewrite <- H at 1. rewrite rstrip_idempotent. exact H.
Qed.

Lemma split_nonempty (sep : N) (s : str) : split sep s <> [].
Proof.
  destruct s as [|c s]; cbn [split]; [discriminate|].
  destruct (c =? sep)%N; [discriminate|].
  destruct (split sep s); discriminate.
Qed.

Lemma split_app (sep : N) (a b : str) :
  split sep (a ++ sep :: b) = split sep a ++ split sep b.
Proof.
  induction a as [|c a IH]; cbn [app split].
  - now rewrite N.eqb_refl.
  - destruct (c =? sep)%N; [now rewrite IH|].
    rewrite IH. pose proof (split_nonempty sep a) as Hn.
    destruct (split sep a); [congruence|reflexivity].
Qed.

Lemma split_whole (sep : N) (s : str) : ~ In sep s -> split sep s = [s].
Proof.
  induction s as [|c s IH]; intros H; cbn [split]; [reflexivity|].
  destruct (N.eqb_spec c sep) as [->|_]; [exfalso; apply H; now left|].
  rewrite IH; [reflexivity|]. intros Hin. apply H. now right.
Qed.

Lemma normalise_ext_dot (h : Host) (e : str) :
  dot_stable h -> starts_with (lit ".") (normalise_ext h e) = true.
Proof.
  intros Hd. unfold normalise_ext.
  destruct (starts_with (lit ".") (strip e)) eqn:E; [|reflexivity].
  destruct (strip e) as [|c r]; [discriminate|].
  change (lit ".") with [46%N] in E. cbn [starts_with] in E.
  rewrite andb_true_r in E. apply N.eqb_eq in E. subst c.
  rewrite Hd. reflexivity.
Qed.

(** X13. The extension list given on the command line is read entry by
    entry: the set for [a,b] is the one for [a] together with the one for
    [b], blank entries give nothing, and every entry ends up with a leading
    dot. An entry may be written with or without its dot, to the same
    effect. *)
Theorem include_exts_reads_entries (h : Host) :
  dot_stable h ->
  (forall a b,
      include_exts h (a ++ 44%N :: b) = include_exts h a ++ include_exts h b)
  /\ include_exts h [] = []
  /\ (forall arg,
         Forall (fun x => starts_with (lit ".") x = true) (include_exts h arg))
  /\ (forall e,
         strip e = e -> e <> [] -> ~ In 44%N e ->
         starts_with (lit ".") e = false ->
         include_exts h e = [46%N :: str_lower h e]
         /\ include_exts h (46%N :: e) = [46%N :: str_lower h e]).
Proof.
  intros Hd. split; [|split; [|split]].
  - intros a b. unfold include_exts.
    now rewrite split_app, filter_app, map_app.
  - reflexivity.
  - intros arg. unfold include_exts. apply Forall_map, Forall_forall.
    intros e _. now apply normalise_ext_dot.
  - intros e He Hne Hc Hs. unfold include_exts. split.
    + rewrite (split_whole _ _ Hc). cbn [filter]. rewrite He.
      destruct e; [congruence|]. cbn [is_empty negb map].
      unfold normalise_ext. now rewrite He, Hs.
    + rewrite split_whole
        by (intros [H|H]; [discriminate|contradiction]).
      cbn [filter]. rewrite (strip_dot e He). cbn [is_empty negb map].
      unfold normalise_ext. rewrite (strip_dot e He).
      change (lit ".") with [46%N]. cbn [starts_with].
      rewrite N.eqb_refl. cbn [andb]. now rewrite Hd.
Qed.

Lemma rsplit_none (c : N) (s : str) : ~ In c s -> rsplit c s = None.
Proof.
  induction s as [|x s IH]; intros H; cbn [rsplit]; [reflexivity|].
  rewrite IH by (intros Hin; apply H; now right).
  destruct (N.eqb_spec x c) as [->|_]; [exfalso; apply H; now left|].
  reflexivity.
Qed.

Lemma rsplit_last (c : N) (pre post : str) :
  ~ In c post -> rsplit c (pre ++ c :: post) = Some (pre, c :: post).
Proof.
  intros H. induction pre as [|x pre IH]; cbn [app rsplit].
  - now rewrite (rsplit_none c post H), N.eqb_refl.
  - now rewrite IH.
Qed.

Lemma name_of_join (dir fn : str) :
  is_filename fn -> name (dir ++ 47%N :: fn) = fn /\ name fn = fn.
Proof.
  intros H. unfold name.
  now rewrite (rsplit_last 47 dir fn H), (rsplit_none 47 fn H).
Qed.

(** X14. Whether a file is an image or a video is decided by its name alone:
    the directories above it play no part, so a directory called [x.jpg]
    does not turn its files into images. A name without a dot, and a name
    whose only dot comes first, have no suffix. *)
Theorem classification_uses_the_file_name (h : Host) (dir fn : str)
  (image_exts video_exts : list str) :
  is_filename fn ->
  is_image h (dir ++ 47%N :: fn) image_exts = is_image h fn image_exts
  /\ is_video h (dir ++ 47%N :: fn) video_exts = is_video h fn video_exts
  /\ suffix (dir ++ 47%N :: fn) = suffix fn
  /\ (~ In 46%N fn -> suffix (dir ++ 47%N :: fn) = [])
  /\ (forall rest, fn = 46%N :: rest -> ~ In 46%N rest ->
      suffix (dir ++ 47%N :: fn) = []).
Proof.
  intros H. destruct (name_of_join dir fn H) as [Hj Hn].
  assert (Hs : suffix (dir ++ 47%N :: fn) = suffix fn)
    by (unfold suffix; now rewrite Hj, Hn).
  unfold is_image, is_video. rewrite Hs.
  repeat split.
  - intros Hd. unfold suffix. now rewrite Hn, (rsplit_none 46 fn Hd).
  - intros rest -> Hd. unfold suffix. rewrite Hn.
    pose proof (rsplit_last 46 [] rest Hd) as R. cbn [app] in R.
    now rewrite R.
Qed.

Lemma mem_dotted (xs : list str) :
  Forall (fun x => starts_with (lit ".") x = true) xs -> mem [] xs = false.
Proof.
  induction 1 as [|x xs Hx _ IH]; [reflexivity|].
  unfold mem in *. cbn [existsb]. rewrite IH.
  destruct x; [discriminate|reflexivity].
Qed.

(** X15. With the extension sets [main] builds, the built-in ones or those of
    [--include-exts], a file without a suffix is always skipped: no process
    is started for it, in any mode. *)
Theorem files_without_suffix_are_skipped (h : Host) (arg : str) (path : Path)
  (mode : str) (timeout : Z) (s : State) :
  dot_stable h -> str_lower h [] = [] -> suffix path = [] ->
  exists fr s',
    audit_one h path mode timeout
      (fst (extension_sets h arg)) (snd (extension_sets h arg)) s
    = (Return fr, s')
    /\ FileResult.status fr = Status.skipped
    /\ FileResult.ok fr = true
    /\ trace s' = trace s.
Proof.
  intros Hd Hl Hs.
  assert (Hu : supported h path (fst (extension_sets h arg))
                 (snd (extension_sets h arg)) = false).
  { unfold supported, is_image, is_video. rewrite Hs, Hl.
    unfold extension_sets. destruct (negb (is_empty arg)); cbn [fst snd].
    - rewrite mem_dotted; [reflexivity|].
      destruct (include_exts h arg) eqn:E; [constructor|].
      rewrite <- E. unfold include_exts.
      apply Forall_map, Forall_forall. intros e _.
      now apply normalise_ext_dot.
    - reflexivity. }
  pose proof (audit_one_returns h path mode timeout
                (fst (extension_sets h arg)) (snd (extension_sets h arg)) s)
    as E.
  cbv zeta in E. unfold audit_events in E. rewrite Hu in E.
  rewrite extend_nil in E. eexists; eexists. split; [exact E|].
  repeat split.
Qed.

(** ** Start-up probes *)

(** X16. [cmd_exists] looks at nothing but whether the program starts: any
    exit status counts as present. The flag of exiftool is set exactly when
    [exiftool -ver] starts and either exits with status zero or
    [exiftool -version] starts as well; when [exiftool -ver] cannot be
    started the flag is false and the second form is not consulted. *)
Theorem startup_flags (launch : list str -> spawned) :
  (forall cmd,
      cmd_exists launch cmd = true
      <-> exists rc o e,
            launch [cmd; lit "-version"] = CompletedProcess rc o e)
  /\ (probe_exiftool launch = true
      <-> exists rc o e,
            launch [lit "exiftool"; lit "-ver"] = CompletedProcess rc o e
            /\ (rc = 0
                \/ exists rc' o' e',
                     launch [lit "exiftool"; lit "-version"]
                     = CompletedProcess rc' o' e'))
  /\ (forall x,
         launch [lit "exiftool"; lit "-ver"] = Raised x ->
         probe_exiftool launch = false).
Proof.
  assert (Hc : forall cmd,
             cmd_exists launch cmd = true
             <-> exists rc o e,
                   launch [cmd; lit "-version"] = CompletedProcess rc o e).
  { intros cmd. unfold cmd_exists.
    destruct (launch [cmd; lit "-version"]) as [rc o e|x]; split.
    - intros _. now exists rc, o, e.
    - reflexivity.
    - discriminate.
    - intros (rc & o & e & H). discriminate. }
  split; [exact Hc|]. split.
  - unfold probe_exiftool.
    destruct (launch [lit "exiftool"; lit "-ver"]) as [rc o e|x]; split.
    + intros H. exists rc, o, e. split; [reflexivity|].
      apply orb_true_iff in H as [H|H];
        [left; now apply Z.eqb_eq|right; now apply Hc].
    + intros (rc' & o' & e' & E & H). injection E as -> _ _.
      apply orb_true_iff. destruct H as [->|H];
        [left; reflexivity|right; now apply Hc].
    + discriminate.
    + intros (rc' & o' & e' & E & _). discriminate.
  - intros x H. unfold probe_exiftool. now rewrite H.
Qed.

(** X17. On a machine where none of the three programs can be started, the
    start-up probes clear the three flags, and then every supported file is
    reported damaged in every mode, without any process being started. *)
Theorem no_tools_means_all_damaged (launch : list str -> spawned) (h : Host)
  (path : Path) (mode : str) (timeout : Z) (image_exts video_exts : list str)
  (s : State) :
  started launch h ->
  (forall cmd, exists e, launch cmd = Raised e) ->
  supported h path image_exts video_exts = true ->
  HAS_FFPROBE h = false /\ HAS_FFMPEG h = false /\ HAS_EXIFTOOL h = false
  /\ exists fr s',
      audit_one h path mode timeout image_exts video_exts s = (Return fr, s')
      /\ FileResult.ok fr = false
      /\ FileResult.status fr = Status.damaged
      /\ forall cmd t, In (Spawn cmd t) (trace s') -> In (Spawn cmd t) (trace s).
Proof.
  intros (Hp & Hf & Hm) Hnone Hs.
  assert (Hc : forall cmd, cmd_exists launch cmd = false).
  { intros cmd. unfold cmd_exists.
    destruct (Hnone [cmd; lit "-version"]) as [e ->]. reflexivity. }
  assert (Hx : probe_exiftool launch = false).
  { unfold probe_exiftool.
    destruct (Hnone [lit "exiftool"; lit "-ver"]) as [e ->]. reflexivity. }
  rewrite Hc in Hp, Hf. rewrite Hx in Hm.
  repeat (split; [assumption|]).
  pose proof (audit_one_returns h path mode timeout image_exts video_exts s)
    as E.
  cbv zeta in E. rewrite Hs in E.
  rewrite verdict_of_probe, verdict_of_first_frame, verdict_of_full_decode,
    Hp, Hf, Hm in E.
  cbn [app any_flag fst snd andb] in E.
  eexists; eexists. split; [exact E|].
  split; [now destruct (str_eqb mode (lit "fast")),
            (str_eqb mode (lit "medium"))|].
  split; [now destruct (str_eqb mode (lit "fast")),
            (str_eqb mode (lit "medium"))|].
  intros cmd t H. cbn [extend tick trace] in H.
  apply in_app_or in H as [H|H]; [exact H|].
  apply spawns_of_audit in H as (_ & [H|[H|[H|H]]]);
    destruct H as (_ & H); try destruct H as (H & _); congruence.
Qed.

(** ** Directory walk *)

Section WalkFacts.

Variable joinpath : str -> str -> result Path.








End WalkFacts.

(** ** The further properties at concrete inputs *)

Lemma dot_stable_h0 : dot_stable h0.
Proof. intros s. reflexivity. Qed.

(** X1 on a text file. *)
Lemma unsupported_file_starts_nothing_witness :
  supported h0 note exts exts = false
  /\ exists ms,
      audit_one h0 note (lit "slow") 120 exts exts start
      = (Return (FileResult.make note true Status.skipped
                   (lit "unsupported extension") (lit "slow") ms),
         {| ticks := 2; trace := [] |}).
Proof.
  split; [reflexivity|].
  exact (unsupported_file_starts_nothing h0 note (lit "slow") 120 exts exts
           start eq_refl).
Defined.

(** X4 on a host content with the file. *)
Lemma medium_pass_implies_fast_pass_witness :
  exists fr s1',
    audit_one h0 clip (lit "medium") 120 exts exts start = (Return fr, s1')
    /\ FileResult.ok fr = true
    /\ exists fr2 s2',
        audit_one h0 clip (lit "fast") 120 exts exts start = (Return fr2, s2')
        /\ FileResult.ok fr2 = true.
Proof.
  destruct (audit_one_passes h0 clip (lit "medium") 120 exts exts start)
    as (fr & s1' & E & _ & _ & Hok & _).
  assert (Hp : passes h0 (lit "medium") 120 exts exts clip = true)
    by (vm_compute; reflexivity).
  rewrite Hp in Hok.
  exists fr, s1'. split; [exact E|]. split; [exact Hok|].
  destruct (medium_pass_implies_fast_pass h0 clip 120 exts exts start start
              s1' fr E Hok) as (fr2 & s2' & E2 & Hok2 & _).
  exists fr2, s2'. split; assumption.
Defined.

(** X5 on a host without the decoder. *)
Lemma no_decoder_means_damaged_witness :
  HAS_FFMPEG Sample.no_decoder = false
  /\ supported Sample.no_decoder clip exts exts = true
  /\ lit "medium" <> lit "fast"
  /\ exists fr s',
      audit_one Sample.no_decoder clip (lit "medium") 120 exts exts start
      = (Return fr, s')
      /\ FileResult.ok fr = false
      /\ FileResult.status fr = Status.damaged.
Proof.
  assert (Hm : lit "medium" <> lit "fast") by discriminate.
  split; [reflexivity|]. split; [reflexivity|]. split; [exact Hm|].
  destruct (no_decoder_means_damaged Sample.no_decoder clip (lit "medium") 120
              exts exts start eq_refl eq_refl Hm)
    as (fr & s' & E & Hok & Hst & _).
  exists fr, s'. repeat split; assumption.
Defined.

(** X6 on a mode the command line does not offer. *)
Lemma other_modes_act_as_slow_witness :
  lit "thorough" <> lit "fast"
  /\ lit "thorough" <> lit "medium"
  /\ exists fr fr' s',
      audit_one h0 clip (lit "thorough") 120 exts exts start = (Return fr, s')
      /\ audit_one h0 clip (lit "slow") 120 exts exts start = (Return fr', s')
      /\ FileResult.ok fr = FileResult.ok fr'
      /\ FileResult.reason fr = FileResult.reason fr'.
Proof.
  assert (Hf : lit "thorough" <> lit "fast") by discriminate.
  assert (Hm : lit "thorough" <> lit "medium") by discriminate.
  split; [exact Hf|]. split; [exact Hm|].
  destruct (other_modes_act_as_slow h0 clip (lit "thorough") 120 exts exts
              start Hf Hm)
    as (fr & fr' & s' & E & E' & Hok & _ & Hr & _).
  exists fr, fr', s'. repeat split; assumption.
Defined.

(** X7 on a host content with the file. *)
Lemma reason_embeds_diagnostics_witness :
  supported h0 clip exts exts = true
  /\ exists slow s2 why_full,
      audit_one h0 clip (lit "slow") 120 exts exts start = (Return slow, s2)
      /\ fst (check_full_decode h0 clip 120 start) = Return (true, why_full)
      /\ contains why_full (FileResult.reason slow) = true.
Proof.
  split; [reflexivity|].
  destruct (reason_embeds_diagnostics h0 clip 120 exts exts start eq_refl)
    as (fast & slow & s1 & s2 & b1 & b2 & b3 & d1 & d2 & d3
        & _ & E & _ & _ & H3 & _ & _ & _ & _ & Hc).
  exists slow, s2, d3. split; [exact E|]. split; [|exact Hc].
  pose proof (H3 start) as H. rewrite H.
  rewrite check_full_decode_value in H.
  injection H as <- _. reflexivity.
Defined.

(** X9 on the output of a decoder. *)
Lemma decode_prefers_utf8_witness :
  Forall (fun b => (Byte.to_N b < 128)%N) [x4f; x4b]%byte
  /\ _decode h0 [x4f; x4b]%byte = Return (lit "OK").
Proof.
  assert (H : Forall (fun b => (Byte.to_N b < 128)%N) [x4f; x4b]%byte)
    by (repeat constructor).
  split; [exact H|].
  exact (proj1 (proj2 (decode_prefers_utf8 h0 [x4f; x4b]%byte)) H).
Defined.

(** X10 on a host whose decoder cannot be started. *)
Lemma raised_process_fails_its_check_witness :
  HAS_FFMPEG Sample.decoder_gone = true
  /\ subprocess_run Sample.decoder_gone (first_frame_cmd clip) 120
     = Raised FileNotFoundError
  /\ exists why,
      fst (check_decode_first_frame Sample.decoder_gone clip 120 start)
      = Return (false, why).
Proof.
  split; [reflexivity|]. split; [reflexivity|].
  exact (proj1 (proj2 (raised_process_fails_its_check Sample.decoder_gone
                         clip 120))
           FileNotFoundError start eq_refl eq_refl).
Defined.

(** X12 on two files whose audits complete in either order. *)
Lemma tally_is_order_independent_witness :
  Permutation [Sample.bad; clip] [clip; Sample.bad]
  /\ exists t1 t2 s1' s2',
      as_completed Sample.mixed (lit "fast") 120 exts exts [Sample.bad; clip]
        Tally.zero start = (Return t1, s1')
      /\ as_completed Sample.mixed (lit "fast") 120 exts exts
           [clip; Sample.bad] Tally.zero (tick start) = (Return t2, s2')
      /\ Tally.ok_count t1 = Tally.ok_count t2
      /\ Tally.bad_count t1 = Tally.bad_count t2.
Proof.
  split; [apply perm_swap|].
  destruct (tally_is_order_independent Sample.mixed (lit "fast") 120 exts exts
              [Sample.bad; clip] [clip; Sample.bad] start (tick start)
              (perm_swap _ _ _))
    as (t1 & t2 & s1' & s2' & E1 & E2 & _ & Hk & Hb & _).
  exists t1, t2, s1', s2'. repeat split; assumption.
Defined.

(** X13 on an entry in capitals. *)
Lemma include_exts_reads_entries_witness :
  dot_stable h0
  /\ include_exts h0 (lit "JPG") = [lit ".jpg"]
  /\ include_exts h0 (lit ".JPG") = [lit ".jpg"].
Proof.
  split; [exact dot_stable_h0|].
  apply (proj2 (proj2 (proj2 (include_exts_reads_entries h0 dot_stable_h0)))
           (lit "JPG")).
  - reflexivity.
  - discriminate.
  - cbn. intuition discriminate.
  - reflexivity.
Defined.

(** X14 on a file in a directory named like an image. *)
Lemma classification_uses_the_file_name_witness :
  is_filename (lit "notes")
  /\ is_image h0 (lit "/media/x.jpg" ++ 47%N :: lit "notes") exts
     = is_image h0 (lit "notes") exts
  /\ suffix (lit "/media/x.jpg" ++ 47%N :: lit "notes") = [].
Proof.
  assert (H : is_filename (lit "notes"))
    by (unfold is_filename; cbn; intuition discriminate).
  split; [exact H|].
  destruct (classification_uses_the_file_name h0 (lit "/media/x.jpg")
              (lit "notes") exts exts H) as (Hi & _ & _ & Hn & _).
  split; [exact Hi|]. apply Hn. cbn. intuition discriminate.
Defined.

(** X15 on a file without a suffix. *)
Lemma files_without_suffix_are_skipped_witness :
  dot_stable h0
  /\ str_lower h0 [] = []
  /\ suffix (lit "/media/README") = []
  /\ exists fr s',
      audit_one h0 (lit "/media/README") (lit "slow") 120
        (fst (extension_sets h0 (lit "jpg, png")))
        (snd (extension_sets h0 (lit "jpg, png"))) start = (Return fr, s')
      /\ FileResult.status fr = Status.skipped.
Proof.
  split; [exact dot_stable_h0|]. split; [reflexivity|].
  split; [reflexivity|].
  destruct (files_without_suffix_are_skipped h0 (lit "jpg, png")
              (lit "/media/README") (lit "slow") 120 start
              dot_stable_h0 eq_refl eq_refl)
    as (fr & s' & E & Hst & _).
  exists fr, s'. split; assumption.
Defined.

(** X17 on a machine with nothing installed. *)
Lemma no_tools_means_all_damaged_witness :
  started Sample.nothing_installed Sample.bare
  /\ (forall cmd, exists e, Sample.nothing_installed cmd = Raised e)
  /\ supported Sample.bare clip exts exts = true
  /\ exists fr s',
      audit_one Sample.bare clip (lit "fast") 120 exts exts start
      = (Return fr, s')
      /\ FileResult.status fr = Status.damaged
      /\ trace s' = [Invoke ContainerProbe].
Proof.
  assert (Hs : started Sample.nothing_installed Sample.bare)
    by (repeat split).
  assert (Hn : forall cmd, exists e, Sample.nothing_installed cmd = Raised e)
    by (intros cmd; eexists; reflexivity).
  split; [exact Hs|]. split; [exact Hn|]. split; [reflexivity|].
  destruct (no_tools_means_all_damaged Sample.nothing_installed Sample.bare
              clip (lit "fast") 120 exts exts start Hs Hn eq_refl)
    as (_ & _ & _ & fr & s' & E & _ & Hst & _).
  exists fr, s'. split; [exact E|]. split; [exact Hst|].
  assert (E0 : audit_one Sample.bare clip (lit "fast") 120 exts exts start
               = (Return fr, s')) by exact E.
  pose proof (audit_one_returns Sample.bare clip (lit "fast") 120 exts exts
                start) as R.
  cbv zeta in R. rewrite E0 in R. injection R as _ ->. reflexivity.
Defined.

(** X8 on a byte that the first four encodings reject. *)
Lemma decode_is_never_lossy_witness :
  Forall (fun enc => exists x, bytes_decode h0 enc Strict [xff]%byte = Raise x)
    [lit "utf-8"; or_else (getpreferredencoding h0) (lit "utf-8");
     lit "gbk"; lit "cp936"]
  /\ _decode h0 [xff]%byte = Return [255%N].
Proof.
  assert (H : Forall
                (fun enc =>
                   exists x, bytes_decode h0 enc Strict [xff]%byte = Raise x)
                [lit "utf-8"; or_else (getpreferredencoding h0) (lit "utf-8");
                 lit "gbk"; lit "cp936"])
    by (repeat constructor; eexists; reflexivity).
  split; [exact H|].
  exact (proj2 (decode_is_never_lossy h0 [xff]%byte) H).
Defined.
